(** * CameraEncoderBridge: capture-session state machine and I420 packing

    A shallow embedding of [app/src/main/cpp/camera/camera_encoder_bridge.cpp]
    (class [nativesensor::CameraEncoderBridge]) and the properties of its
    session life cycle and of its per-frame plane conversion.

    Conventions of the embedding.
    - Pointers are integers, [nullptr] is [0].
    - [int32_t] values are integers of [Z].  The products and sums the
      frame handler forms in [int32_t] are written with their two's
      complement wrap-around ([mul32], [add32]); signed overflow is undefined
      in C++, and the theorems about frames carry the hypothesis that the
      frame fits, under which nothing wraps.  The C++ [/] on integers
      truncates toward zero and is [Z.quot].
    - C++ exceptions: the constructor of [std::vector] and the frame callback
      can throw.  The frame handler has no handler for them; an exception
      that leaves it is the last effect of its trace.
    - The NDK camera and media libraries are external.  Every call that
      creates, configures or releases one of their objects is appended to a
      trace, together with buffer allocations and invocations of the frame
      callback; what a fallible call answers (its status and the value it
      leaves in its out-parameter) is read from an [Ndk] record, over which
      the theorems quantify.
    - The mutex and the memory orders of the atomic flag are not modelled:
      every operation below is one atomic transition of the object.
    - Logging is not modelled. *)

From Stdlib Require Import ZArith List String Bool Lia.
From stdpp Require Import base list list_numbers.
Import ListNotations.
Local Open Scope Z_scope.

(** ** The NDK interface *)

Definition ptr := Z.
Definition nullptr : ptr := 0.
Definition is_null (p : ptr) : bool := p =? nullptr.

Definition media_status_t := Z.
Definition camera_status_t := Z.
Definition AMEDIA_OK : media_status_t := 0.
Definition ACAMERA_OK : camera_status_t := 0.

(** [AIMAGE_FORMAT_YUV_420_888] and [TEMPLATE_RECORD] of the NDK headers. *)
Definition AIMAGE_FORMAT_YUV_420_888 : Z := 35.
Definition TEMPLATE_RECORD : Z := 3.
Definition kImageFormat : Z := AIMAGE_FORMAT_YUV_420_888.
Definition kMaxImages : Z := 4.

(** The [std::function] handed to [startCapture] is named by a number; an
    empty [std::function] is [None]. *)
Definition FrameDataCallback := nat.

(** One plane of an [AImage] as its accessors report it:
    [AImage_getPlaneData] (a null data pointer is [None], and the reported
    length is the length of the list), [AImage_getPlaneRowStride] and
    [AImage_getPlanePixelStride]. *)
Record Plane := {
  planeData : option (list Z);
  planeRowStride : Z;
  planePixelStride : Z
}.

(** What the handler can learn about an acquired [AImage]. *)
Record AImage := {
  imageWidth : Z;
  imageHeight : Z;
  imageTimestamp : Z;
  plane0 : Plane;
  plane1 : Plane;
  plane2 : Plane
}.

(** The exceptions that can leave the frame handler: [std::length_error]
    and [std::bad_alloc] from the constructor of [std::vector], and whatever
    the frame callback throws. *)
Inductive Exception :=
| length_error
| bad_alloc
| callback_exception.

(** The observable effects. *)
Inductive Event :=
| AImageReader_new (width height format maxImages : Z)
| AImageReader_setImageListener (reader : ptr)
| AImageReader_getWindow (reader : ptr)
| ACameraManager_openCamera (cameraId : string)
| ACameraOutputTarget_create (window : ptr)
| ACameraDevice_createCaptureRequest (device : ptr) (template : Z)
| ACaptureRequest_addTarget (request target : ptr)
| ACaptureSessionOutputContainer_create
| ACaptureSessionOutput_create (window : ptr)
| ACaptureSessionOutputContainer_add (container output : ptr)
| ACameraDevice_createCaptureSession (device container : ptr)
| ACameraCaptureSession_setRepeatingRequest (session request : ptr)
| ACameraCaptureSession_stopRepeating (session : ptr)
| ACameraCaptureSession_close (session : ptr)
| ACameraDevice_close (device : ptr)
| ACaptureRequest_free (request : ptr)
| ACameraOutputTarget_free (target : ptr)
| ACaptureSessionOutput_free (output : ptr)
| ACaptureSessionOutputContainer_free (container : ptr)
| AImageReader_delete (reader : ptr)
| AImage_delete (image : AImage)
| vector_alloc (size : Z)
| frameCallback_invoke (callback : FrameDataCallback) (data : list Z)
    (size width height timestampNs : Z)
| exception_thrown (e : Exception).

(** What the C++ runtime and the consumer do during one run of the frame
    handler: whether [operator new] fails when the buffer is allocated, and
    whether the frame callback throws. *)
Record Host := {
  new_fails : bool;
  callback_throws : bool
}.

(** The answers of the fallible calls of one [startCapture]: the status
    returned and, for a call with an out-parameter, the value that
    parameter holds when the call returns. *)
Record Ndk := {
  manager_isValid : bool;
  ret_AImageReader_new : media_status_t * ptr;
  ret_AImageReader_setImageListener : media_status_t;
  ret_AImageReader_getWindow : media_status_t * ptr;
  ret_ACameraManager_openCamera : camera_status_t * ptr;
  ret_ACameraOutputTarget_create : camera_status_t * ptr;
  ret_ACameraDevice_createCaptureRequest : camera_status_t * ptr;
  ret_ACaptureRequest_addTarget : camera_status_t;
  ret_ACaptureSessionOutputContainer_create : camera_status_t * ptr;
  ret_ACaptureSessionOutput_create : camera_status_t * ptr;
  ret_ACaptureSessionOutputContainer_add : camera_status_t;
  ret_ACameraDevice_createCaptureSession : camera_status_t * ptr;
  ret_ACameraCaptureSession_setRepeatingRequest : camera_status_t
}.

(** ** The object *)

(** The data members of [CameraEncoderBridge] (camera_encoder_bridge.h).
    The three callback structs only hold [this] and the addresses of the
    static handlers and are left out. *)
Record CameraEncoderBridge := {
  capturing_ : bool;
  currentCameraId_ : string;
  cameraDevice_ : ptr;
  captureSession_ : ptr;
  outputContainer_ : ptr;
  sessionOutput_ : ptr;
  outputTarget_ : ptr;
  captureRequest_ : ptr;
  imageReader_ : ptr;
  imageReaderWindow_ : ptr;
  frameCallback_ : option FrameDataCallback
}.

(** The object together with the trace of effects so far. *)
Record World := {
  self : CameraEncoderBridge;
  trace : list Event
}.

Definition set_capturing (v : bool) (b : CameraEncoderBridge) :=
  {| capturing_ := v; currentCameraId_ := currentCameraId_ b;
     cameraDevice_ := cameraDevice_ b; captureSession_ := captureSession_ b;
     outputContainer_ := outputContainer_ b; sessionOutput_ := sessionOutput_ b;
     outputTarget_ := outputTarget_ b; captureRequest_ := captureRequest_ b;
     imageReader_ := imageReader_ b; imageReaderWindow_ := imageReaderWindow_ b;
     frameCallback_ := frameCallback_ b |}.

Definition set_currentCameraId (v : string) (b : CameraEncoderBridge) :=
  {| capturing_ := capturing_ b; currentCameraId_ := v;
     cameraDevice_ := cameraDevice_ b; captureSession_ := captureSession_ b;
     outputContainer_ := outputContainer_ b; sessionOutput_ := sessionOutput_ b;
     outputTarget_ := outputTarget_ b; captureRequest_ := captureRequest_ b;
     imageReader_ := imageReader_ b; imageReaderWindow_ := imageReaderWindow_ b;
     frameCallback_ := frameCallback_ b |}.

Definition set_cameraDevice (v : ptr) (b : CameraEncoderBridge) :=
  {| capturing_ := capturing_ b; currentCameraId_ := currentCameraId_ b;
     cameraDevice_ := v; captureSession_ := captureSession_ b;
     outputContainer_ := outputContainer_ b; sessionOutput_ := sessionOutput_ b;
     outputTarget_ := outputTarget_ b; captureRequest_ := captureRequest_ b;
     imageReader_ := imageReader_ b; imageReaderWindow_ := imageReaderWindow_ b;
     frameCallback_ := frameCallback_ b |}.

Definition set_captureSession (v : ptr) (b : CameraEncoderBridge) :=
  {| capturing_ := capturing_ b; currentCameraId_ := currentCameraId_ b;
     cameraDevice_ := cameraDevice_ b; captureSession_ := v;
     outputContainer_ := outputContainer_ b; sessionOutput_ := sessionOutput_ b;
     outputTarget_ := outputTarget_ b; captureRequest_ := captureRequest_ b;
     imageReader_ := imageReader_ b; imageReaderWindow_ := imageReaderWindow_ b;
     frameCallback_ := frameCallback_ b |}.

Definition set_outputContainer (v : ptr) (b : CameraEncoderBridge) :=
  {| capturing_ := capturing_ b; currentCameraId_ := currentCameraId_ b;
     cameraDevice_ := cameraDevice_ b; captureSession_ := captureSession_ b;
     outputContainer_ := v; sessionOutput_ := sessionOutput_ b;
     outputTarget_ := outputTarget_ b; captureRequest_ := captureRequest_ b;
     imageReader_ := imageReader_ b; imageReaderWindow_ := imageReaderWindow_ b;
     frameCallback_ := frameCallback_ b |}.

Definition set_sessionOutput (v : ptr) (b : CameraEncoderBridge) :=
  {| capturing_ := capturing_ b; currentCameraId_ := currentCameraId_ b;
     cameraDevice_ := cameraDevice_ b; captureSession_ := captureSession_ b;
     outputContainer_ := outputContainer_ b; sessionOutput_ := v;
     outputTarget_ := outputTarget_ b; captureRequest_ := captureRequest_ b;
     imageReader_ := imageReader_ b; imageReaderWindow_ := imageReaderWindow_ b;
     frameCallback_ := frameCallback_ b |}.

Definition set_outputTarget (v : ptr) (b : CameraEncoderBridge) :=
  {| capturing_ := capturing_ b; currentCameraId_ := currentCameraId_ b;
     cameraDevice_ := cameraDevice_ b; captureSession_ := captureSession_ b;
     outputContainer_ := outputContainer_ b; sessionOutput_ := sessionOutput_ b;
     outputTarget_ := v; captureRequest_ := captureRequest_ b;
     imageReader_ := imageReader_ b; imageReaderWindow_ := imageReaderWindow_ b;
     frameCallback_ := frameCallback_ b |}.

Definition set_captureRequest (v : ptr) (b : CameraEncoderBridge) :=
  {| capturing_ := capturing_ b; currentCameraId_ := currentCameraId_ b;
     cameraDevice_ := cameraDevice_ b; captureSession_ := captureSession_ b;
     outputContainer_ := outputContainer_ b; sessionOutput_ := sessionOutput_ b;
     outputTarget_ := outputTarget_ b; captureRequest_ := v;
     imageReader_ := imageReader_ b; imageReaderWindow_ := imageReaderWindow_ b;
     frameCallback_ := frameCallback_ b |}.

Definition set_imageReader (v : ptr) (b : CameraEncoderBridge) :=
  {| capturing_ := capturing_ b; currentCameraId_ := currentCameraId_ b;
     cameraDevice_ := cameraDevice_ b; captureSession_ := captureSession_ b;
     outputContainer_ := outputContainer_ b; sessionOutput_ := sessionOutput_ b;
     outputTarget_ := outputTarget_ b; captureRequest_ := captureRequest_ b;
     imageReader_ := v; imageReaderWindow_ := imageReaderWindow_ b;
     frameCallback_ := frameCallback_ b |}.

Definition set_imageReaderWindow (v : ptr) (b : CameraEncoderBridge) :=
  {| capturing_ := capturing_ b; currentCameraId_ := currentCameraId_ b;
     cameraDevice_ := cameraDevice_ b; captureSession_ := captureSession_ b;
     outputContainer_ := outputContainer_ b; sessionOutput_ := sessionOutput_ b;
     outputTarget_ := outputTarget_ b; captureRequest_ := captureRequest_ b;
     imageReader_ := imageReader_ b; imageReaderWindow_ := v;
     frameCallback_ := frameCallback_ b |}.

Definition set_frameCallback (v : option FrameDataCallback) (b : CameraEncoderBridge) :=
  {| capturing_ := capturing_ b; currentCameraId_ := currentCameraId_ b;
     cameraDevice_ := cameraDevice_ b; captureSession_ := captureSession_ b;
     outputContainer_ := outputContainer_ b; sessionOutput_ := sessionOutput_ b;
     outputTarget_ := outputTarget_ b; captureRequest_ := captureRequest_ b;
     imageReader_ := imageReader_ b; imageReaderWindow_ := imageReaderWindow_ b;
     frameCallback_ := v |}.

(** [upd f w] changes the object, [emit e w] appends an effect. *)
Definition upd (f : CameraEncoderBridge -> CameraEncoderBridge) (w : World) : World :=
  {| self := f (self w); trace := trace w |}.

Definition emit (e : Event) (w : World) : World :=
  {| self := self w; trace := trace w ++ [e] |}.

Definition emit_all (es : list Event) (w : World) : World :=
  {| self := self w; trace := trace w ++ es |}.

(** A freshly constructed object: the in-class initialisers of the header. *)
Definition fresh : CameraEncoderBridge :=
  {| capturing_ := false; currentCameraId_ := EmptyString;
     cameraDevice_ := nullptr; captureSession_ := nullptr;
     outputContainer_ := nullptr; sessionOutput_ := nullptr;
     outputTarget_ := nullptr; captureRequest_ := nullptr;
     imageReader_ := nullptr; imageReaderWindow_ := nullptr;
     frameCallback_ := None |}.

Definition constructed : World := {| self := fresh; trace := [] |}.

(** ** cleanup (lines 195-241) *)

(** The pattern [if (h) { free(h); h = nullptr; }]: [calls p] are the
    release calls made on the handle [p]. *)
Definition release (get : CameraEncoderBridge -> ptr)
    (set : ptr -> CameraEncoderBridge -> CameraEncoderBridge)
    (calls : ptr -> list Event) (w : World) : World :=
  if is_null (get (self w)) then w
  else upd (set nullptr) (emit_all (calls (get (self w))) w).

Definition cleanup (w : World) : World :=
  let w := upd (set_capturing false) w in
  let w := release captureSession_ set_captureSession
             (fun s => [ACameraCaptureSession_stopRepeating s;
                        ACameraCaptureSession_close s]) w in
  let w := release cameraDevice_ set_cameraDevice
             (fun d => [ACameraDevice_close d]) w in
  let w := release captureRequest_ set_captureRequest
             (fun r => [ACaptureRequest_free r]) w in
  let w := release outputTarget_ set_outputTarget
             (fun t => [ACameraOutputTarget_free t]) w in
  let w := release sessionOutput_ set_sessionOutput
             (fun o => [ACaptureSessionOutput_free o]) w in
  let w := release outputContainer_ set_outputContainer
             (fun c => [ACaptureSessionOutputContainer_free c]) w in
  (* imageReaderWindow_ is owned by imageReader_: not released separately *)
  let w := upd (set_imageReaderWindow nullptr) w in
  let w := release imageReader_ set_imageReader
             (fun r => [AImageReader_delete r]) w in
  let w := upd (set_currentCameraId EmptyString) w in
  upd (set_frameCallback None) w.

(** ** stopCapture (lines 186-193) and the destructor (lines 25-28) *)

Definition stopCapture (w : World) : World :=
  if negb (capturing_ (self w)) then w else cleanup w.

Definition destructor (w : World) : World := stopCapture w.

(** ** Device notifications (lines 338-348) *)

Definition onDeviceDisconnected (w : World) : World :=
  upd (set_capturing false) w.

Definition onDeviceError (error : Z) (w : World) : World :=
  upd (set_capturing false) w.

(** ** startCapture (lines 30-184) *)

(** The twelve checked calls of the construction sequence, in order. *)
Inductive Step :=
| NewImageReader
| SetImageListener
| GetWindow
| OpenCamera
| CreateOutputTarget
| CreateCaptureRequest
| AddTargetToRequest
| CreateOutputContainer
| CreateSessionOutput
| AddOutputToContainer
| CreateCaptureSession
| SetRepeatingRequest.

(** The [return] statement by which [startCapture] leaves. *)
Inductive StartOutcome :=
| AlreadyCapturing            (* line 38: return true *)
| ManagerInvalid              (* line 46: return false *)
| StepFailed (s : Step)       (* the return false after the check of s *)
| Started.                    (* line 183: return true *)

Definition returned (o : StartOutcome) : bool :=
  match o with
  | AlreadyCapturing | Started => true
  | ManagerInvalid | StepFailed _ => false
  end.

(** Lines 44-183: the construction sequence, entered once the object is
    known not to be capturing. *)
Definition build_pipeline (ndk : Ndk) (cameraId : string) (width height : Z)
    (callback : option FrameDataCallback) (w : World) : StartOutcome * World :=
  if negb (manager_isValid ndk) then (ManagerInvalid, w) else
  let w := upd (set_frameCallback callback) w in
  let w := upd (set_currentCameraId cameraId) w in
  (* Create AImageReader for YUV capture *)
  let w := emit (AImageReader_new width height kImageFormat kMaxImages) w in
  let mediaStatus := fst (ret_AImageReader_new ndk) in
  let w := upd (set_imageReader (snd (ret_AImageReader_new ndk))) w in
  if negb (mediaStatus =? AMEDIA_OK) || is_null (imageReader_ (self w))
  then (StepFailed NewImageReader, cleanup w) else
  (* Set image available listener *)
  let w := emit (AImageReader_setImageListener (imageReader_ (self w))) w in
  let mediaStatus := ret_AImageReader_setImageListener ndk in
  if negb (mediaStatus =? AMEDIA_OK)
  then (StepFailed SetImageListener, cleanup w) else
  (* Get the ANativeWindow from AImageReader *)
  let w := emit (AImageReader_getWindow (imageReader_ (self w))) w in
  let mediaStatus := fst (ret_AImageReader_getWindow ndk) in
  let w := upd (set_imageReaderWindow (snd (ret_AImageReader_getWindow ndk))) w in
  if negb (mediaStatus =? AMEDIA_OK) || is_null (imageReaderWindow_ (self w))
  then (StepFailed GetWindow, cleanup w) else
  (* Open camera device *)
  let w := emit (ACameraManager_openCamera cameraId) w in
  let status := fst (ret_ACameraManager_openCamera ndk) in
  let w := upd (set_cameraDevice (snd (ret_ACameraManager_openCamera ndk))) w in
  if negb (status =? ACAMERA_OK) || is_null (cameraDevice_ (self w))
  then (StepFailed OpenCamera, cleanup w) else
  (* Create output target from image reader window *)
  let w := emit (ACameraOutputTarget_create (imageReaderWindow_ (self w))) w in
  let status := fst (ret_ACameraOutputTarget_create ndk) in
  let w := upd (set_outputTarget (snd (ret_ACameraOutputTarget_create ndk))) w in
  if negb (status =? ACAMERA_OK)
  then (StepFailed CreateOutputTarget, cleanup w) else
  (* Create capture request *)
  let w := emit (ACameraDevice_createCaptureRequest (cameraDevice_ (self w))
                   TEMPLATE_RECORD) w in
  let status := fst (ret_ACameraDevice_createCaptureRequest ndk) in
  let w := upd (set_captureRequest
                  (snd (ret_ACameraDevice_createCaptureRequest ndk))) w in
  if negb (status =? ACAMERA_OK)
  then (StepFailed CreateCaptureRequest, cleanup w) else
  (* Add target to request *)
  let w := emit (ACaptureRequest_addTarget (captureRequest_ (self w))
                   (outputTarget_ (self w))) w in
  let status := ret_ACaptureRequest_addTarget ndk in
  if negb (status =? ACAMERA_OK)
  then (StepFailed AddTargetToRequest, cleanup w) else
  (* Create session output container *)
  let w := emit ACaptureSessionOutputContainer_create w in
  let status := fst (ret_ACaptureSessionOutputContainer_create ndk) in
  let w := upd (set_outputContainer
                  (snd (ret_ACaptureSessionOutputContainer_create ndk))) w in
  if negb (status =? ACAMERA_OK)
  then (StepFailed CreateOutputContainer, cleanup w) else
  (* Create session output *)
  let w := emit (ACaptureSessionOutput_create (imageReaderWindow_ (self w))) w in
  let status := fst (ret_ACaptureSessionOutput_create ndk) in
  let w := upd (set_sessionOutput (snd (ret_ACaptureSessionOutput_create ndk))) w in
  if negb (status =? ACAMERA_OK)
  then (StepFailed CreateSessionOutput, cleanup w) else
  (* Add output to container *)
  let w := emit (ACaptureSessionOutputContainer_add (outputContainer_ (self w))
                   (sessionOutput_ (self w))) w in
  let status := ret_ACaptureSessionOutputContainer_add ndk in
  if negb (status =? ACAMERA_OK)
  then (StepFailed AddOutputToContainer, cleanup w) else
  (* Create capture session *)
  let w := emit (ACameraDevice_createCaptureSession (cameraDevice_ (self w))
                   (outputContainer_ (self w))) w in
  let status := fst (ret_ACameraDevice_createCaptureSession ndk) in
  let w := upd (set_captureSession
                  (snd (ret_ACameraDevice_createCaptureSession ndk))) w in
  if negb (status =? ACAMERA_OK) || is_null (captureSession_ (self w))
  then (StepFailed CreateCaptureSession, cleanup w) else
  (* Start repeating capture request *)
  let w := emit (ACameraCaptureSession_setRepeatingRequest
                   (captureSession_ (self w)) (captureRequest_ (self w))) w in
  let status := ret_ACameraCaptureSession_setRepeatingRequest ndk in
  if negb (status =? ACAMERA_OK)
  then (StepFailed SetRepeatingRequest, cleanup w) else
  let w := upd (set_capturing true) w in
  (Started, w).

(** Lines 33-42, then the construction sequence. *)
Definition startCapture_at (ndk : Ndk) (cameraId : string) (width height : Z)
    (callback : option FrameDataCallback) (w : World) : StartOutcome * World :=
  if capturing_ (self w) && String.eqb (currentCameraId_ (self w)) cameraId
  then (AlreadyCapturing, w) else
  let w := if capturing_ (self w) then cleanup w else w in
  build_pipeline ndk cameraId width height callback w.

(** [startCapture] as the caller sees it: the boolean and the new state. *)
Definition startCapture (ndk : Ndk) (cameraId : string) (width height : Z)
    (callback : option FrameDataCallback) (w : World) : bool * World :=
  let r := startCapture_at ndk cameraId width height callback w in
  (returned (fst r), snd r).

(** ** Byte buffers *)

(** A [uint8_t] buffer is a list of integers.  The source indexes buffers
    through raw pointers: a read outside the list or a write outside the
    destination is undefined there.  Here such a read yields [0] and such a
    write is dropped; the theorems below only speak about offsets that are
    inside their buffers. *)
Definition byte_at (l : list Z) (i : Z) : option Z :=
  if i <? 0 then None else l !! Z.to_nat i.

Definition peek (l : list Z) (i : Z) : Z := default 0 (byte_at l i).

Definition poke (l : list Z) (i v : Z) : list Z :=
  if (0 <=? i) && (i <? Z.of_nat (length l)) then <[Z.to_nat i := v]> l else l.

(** [for (int32_t i = 0; i < n; ++i) s = body i s]. *)
Definition for_loop {S : Type} (n : Z) (body : Z -> S -> S) (s : S) : S :=
  foldl (fun s i => body i s) s (seqZ 0 n).

(** [memcpy(dst + doff, src + soff, n)]. *)
Definition memcpy (dst : list Z) (doff : Z) (src : list Z) (soff n : Z) : list Z :=
  for_loop n (fun k b => poke b (doff + k) (peek src (soff + k))) dst.

(** ** int32_t arithmetic *)

Definition INT32_MAX : Z := 2147483647.
Definition INT32_MIN : Z := -2147483648.

(** The value of an [int32_t] expression whose exact value is [x]: two's
    complement wrap-around. *)
Definition wrap32 (x : Z) : Z := (x + 2147483648) mod 4294967296 - 2147483648.

Definition mul32 (a b : Z) : Z := wrap32 (a * b).
Definition add32 (a b : Z) : Z := wrap32 (a + b).

(** [std::vector<uint8_t> v(static_cast<size_t>(n))] for an [int32_t] [n]:
    a negative [n] becomes a size above [max_size()] and the constructor
    throws [std::length_error]; a positive size is allocated, and the
    allocation can fail with [std::bad_alloc]; otherwise [n] zero bytes. *)
Definition vector_new (host : Host) (n : Z) : Exception + list Z :=
  if n <? 0 then inl length_error
  else if (0 <? n) && new_fails host then inl bad_alloc
  else inr (replicate (Z.to_nat n) 0).

(** ** onImageAvailable (lines 243-336) *)

(** Lines 292-301: copy the Y plane.  [row * width] and [row * yRowStride]
    are [int32_t] products added to a pointer. *)
Definition copy_Y (width height : Z) (yData : list Z) (yRowStride : Z)
    (i420Buffer : list Z) : list Z :=
  if yRowStride =? width then
    memcpy i420Buffer 0 yData 0 (mul32 width height)
  else
    for_loop height (fun row buf =>
      memcpy buf (mul32 row width) yData (mul32 row yRowStride) width)
      i420Buffer.

(** Lines 303-330: copy the U and V planes, de-interleaving if needed.
    [uDst] and [vDst] are offsets into [i420Buffer]; the indices of the
    de-interleaving loop are [int32_t] expressions. *)
Definition copy_UV (width height : Z) (uData vData : list Z)
    (uvRowStride uvPixelStride : Z) (i420Buffer : list Z) : list Z :=
  let uvWidth := Z.quot width 2 in
  let uvHeight := Z.quot height 2 in
  let uDst := mul32 width height in
  let vDst := uDst + mul32 uvWidth uvHeight in
  if uvPixelStride =? 1 then
    if uvRowStride =? uvWidth then
      let buf := memcpy i420Buffer uDst uData 0 (mul32 uvWidth uvHeight) in
      memcpy buf vDst vData 0 (mul32 uvWidth uvHeight)
    else
      for_loop uvHeight (fun row buf =>
        let buf := memcpy buf (uDst + mul32 row uvWidth) uData
                     (mul32 row uvRowStride) uvWidth in
        memcpy buf (vDst + mul32 row uvWidth) vData (mul32 row uvRowStride)
          uvWidth)
        i420Buffer
  else
    for_loop uvHeight (fun row buf =>
      for_loop uvWidth (fun col buf =>
        let buf := poke buf (uDst + add32 (mul32 row uvWidth) col)
                     (peek uData (add32 (mul32 row uvRowStride)
                                    (mul32 col uvPixelStride))) in
        poke buf (vDst + add32 (mul32 row uvWidth) col)
          (peek vData (add32 (mul32 row uvRowStride)
                         (mul32 col uvPixelStride)))) buf)
      i420Buffer.

(** Line 286: [width * height * 3 / 2] in [int32_t]. *)
Definition i420Size (width height : Z) : Z :=
  Z.quot (mul32 (mul32 width height) 3) 2.

(** Lines 292-330: the two copies into the allocated buffer. *)
Definition i420_fill (width height : Z) (yData uData vData : list Z)
    (yRowStride uvRowStride uvPixelStride : Z) (i420Buffer : list Z) : list Z :=
  let i420Buffer := copy_Y width height yData yRowStride i420Buffer in
  copy_UV width height uData vData uvRowStride uvPixelStride i420Buffer.

(** The handler.  [acquired] is what [AImageReader_acquireLatestImage]
    answered: its status and the image, [None] for a null image pointer.
    Only the strides of planes 0 and 1 are queried.  An exception thrown at
    line 290 or by the callback at line 332 leaves the handler at once:
    line 335 is not reached. *)
Definition onImageAvailable (host : Host)
    (acquired : media_status_t * option AImage) (w : World) : World :=
  match snd acquired with
  | None => w
  | Some image =>
    if negb (fst acquired =? AMEDIA_OK) then w else
    match frameCallback_ (self w) with
    | None => emit (AImage_delete image) w
    | Some callback =>
      let width := imageWidth image in
      let height := imageHeight image in
      let timestampNs := imageTimestamp image in
      match planeData (plane0 image), planeData (plane1 image),
            planeData (plane2 image) with
      | Some yData, Some uData, Some vData =>
        let yRowStride := planeRowStride (plane0 image) in
        let uvRowStride := planeRowStride (plane1 image) in
        let uvPixelStride := planePixelStride (plane1 image) in
        let w := emit (vector_alloc (i420Size width height)) w in
        match vector_new host (i420Size width height) with
        | inl e => emit (exception_thrown e) w
        | inr i420Buffer =>
          let i420Buffer := i420_fill width height yData uData vData
                              yRowStride uvRowStride uvPixelStride
                              i420Buffer in
          let w := emit (frameCallback_invoke callback i420Buffer
                           (i420Size width height) width height timestampNs)
                     w in
          if callback_throws host
          then emit (exception_thrown callback_exception) w
          else emit (AImage_delete image) w
        end
      | _, _, _ => emit (AImage_delete image) w
      end
    end
  end.

(** ** Sequences of operations *)

Inductive Op :=
| OpStartCapture (ndk : Ndk) (cameraId : string) (width height : Z)
    (callback : option FrameDataCallback)
| OpStopCapture
| OpCleanup
| OpDeviceDisconnected
| OpDeviceError (error : Z).

Definition perform (w : World) (o : Op) : World :=
  match o with
  | OpStartCapture ndk cameraId width height callback =>
      snd (startCapture ndk cameraId width height callback w)
  | OpStopCapture => stopCapture w
  | OpCleanup => cleanup w
  | OpDeviceDisconnected => onDeviceDisconnected w
  | OpDeviceError error => onDeviceError error w
  end.

Definition run (ops : list Op) (w : World) : World := foldl perform w ops.

(** ** Vocabulary of the statements *)

(** The eight pipeline handles. *)
Definition handles (b : CameraEncoderBridge) : list ptr :=
  [cameraDevice_ b; captureSession_ b; captureRequest_ b; outputTarget_ b;
   sessionOutput_ b; outputContainer_ b; imageReader_ b; imageReaderWindow_ b].

Definition all_populated (b : CameraEncoderBridge) : bool :=
  forallb (fun p => negb (is_null p)) (handles b).

Definition all_null (b : CameraEncoderBridge) : bool :=
  forallb is_null (handles b).

(** The release calls owed for a handle: none when it is null. *)
Definition held (p : ptr) (calls : list Event) : list Event :=
  if is_null p then [] else calls.

(** The release calls [cleanup] makes on an object, in order. *)
Definition releases (b : CameraEncoderBridge) : list Event :=
  held (captureSession_ b)
    [ACameraCaptureSession_stopRepeating (captureSession_ b);
     ACameraCaptureSession_close (captureSession_ b)] ++
  held (cameraDevice_ b) [ACameraDevice_close (cameraDevice_ b)] ++
  held (captureRequest_ b) [ACaptureRequest_free (captureRequest_ b)] ++
  held (outputTarget_ b) [ACameraOutputTarget_free (outputTarget_ b)] ++
  held (sessionOutput_ b) [ACaptureSessionOutput_free (sessionOutput_ b)] ++
  held (outputContainer_ b)
    [ACaptureSessionOutputContainer_free (outputContainer_ b)] ++
  held (imageReader_ b) [AImageReader_delete (imageReader_ b)].

Definition is_release (e : Event) : bool :=
  match e with
  | ACameraCaptureSession_stopRepeating _ | ACameraCaptureSession_close _
  | ACameraDevice_close _ | ACaptureRequest_free _ | ACameraOutputTarget_free _
  | ACaptureSessionOutput_free _ | ACaptureSessionOutputContainer_free _
  | AImageReader_delete _ => true
  | _ => false
  end.

Definition step_index (s : Step) : nat :=
  match s with
  | NewImageReader => 0 | SetImageListener => 1 | GetWindow => 2
  | OpenCamera => 3 | CreateOutputTarget => 4 | CreateCaptureRequest => 5
  | AddTargetToRequest => 6 | CreateOutputContainer => 7
  | CreateSessionOutput => 8 | AddOutputToContainer => 9
  | CreateCaptureSession => 10 | SetRepeatingRequest => 11
  end%nat.

(** [after s' s]: the call [s'] comes before the call [s]. *)
Definition after (s' s : Step) : bool := (step_index s' <? step_index s)%nat.

(** The check that follows the call [s] in [startCapture], on the answer of
    the provider: the status is not OK or, where the source tests it, the
    handle is null. *)
Definition step_fails (ndk : Ndk) (s : Step) : bool :=
  match s with
  | NewImageReader =>
      negb (fst (ret_AImageReader_new ndk) =? AMEDIA_OK)
      || is_null (snd (ret_AImageReader_new ndk))
  | SetImageListener =>
      negb (ret_AImageReader_setImageListener ndk =? AMEDIA_OK)
  | GetWindow =>
      negb (fst (ret_AImageReader_getWindow ndk) =? AMEDIA_OK)
      || is_null (snd (ret_AImageReader_getWindow ndk))
  | OpenCamera =>
      negb (fst (ret_ACameraManager_openCamera ndk) =? ACAMERA_OK)
      || is_null (snd (ret_ACameraManager_openCamera ndk))
  | CreateOutputTarget =>
      negb (fst (ret_ACameraOutputTarget_create ndk) =? ACAMERA_OK)
  | CreateCaptureRequest =>
      negb (fst (ret_ACameraDevice_createCaptureRequest ndk) =? ACAMERA_OK)
  | AddTargetToRequest =>
      negb (ret_ACaptureRequest_addTarget ndk =? ACAMERA_OK)
  | CreateOutputContainer =>
      negb (fst (ret_ACaptureSessionOutputContainer_create ndk) =? ACAMERA_OK)
  | CreateSessionOutput =>
      negb (fst (ret_ACaptureSessionOutput_create ndk) =? ACAMERA_OK)
  | AddOutputToContainer =>
      negb (ret_ACaptureSessionOutputContainer_add ndk =? ACAMERA_OK)
  | CreateCaptureSession =>
      negb (fst (ret_ACameraDevice_createCaptureSession ndk) =? ACAMERA_OK)
      || is_null (snd (ret_ACameraDevice_createCaptureSession ndk))
  | SetRepeatingRequest =>
      negb (ret_ACameraCaptureSession_setRepeatingRequest ndk =? ACAMERA_OK)
  end.

(** The construction calls in the order of the source, and the first of
    them whose check fails. *)
Definition construction : list Step :=
  [NewImageReader; SetImageListener; GetWindow; OpenCamera; CreateOutputTarget;
   CreateCaptureRequest; AddTargetToRequest; CreateOutputContainer;
   CreateSessionOutput; AddOutputToContainer; CreateCaptureSession;
   SetRepeatingRequest].

Definition first_failure (ndk : Ndk) : option Step :=
  find (step_fails ndk) construction.

(** The release calls owed for the handles that the calls before [s] left
    in the object: the reader window is owned by the reader and has no
    release call of its own. *)
Definition owed_before (ndk : Ndk) (s : Step) : list Event :=
  (if after NewImageReader s
   then held (snd (ret_AImageReader_new ndk))
          [AImageReader_delete (snd (ret_AImageReader_new ndk))]
   else []) ++
  (if after OpenCamera s
   then held (snd (ret_ACameraManager_openCamera ndk))
          [ACameraDevice_close (snd (ret_ACameraManager_openCamera ndk))]
   else []) ++
  (if after CreateOutputTarget s
   then held (snd (ret_ACameraOutputTarget_create ndk))
          [ACameraOutputTarget_free (snd (ret_ACameraOutputTarget_create ndk))]
   else []) ++
  (if after CreateCaptureRequest s
   then held (snd (ret_ACameraDevice_createCaptureRequest ndk))
          [ACaptureRequest_free (snd (ret_ACameraDevice_createCaptureRequest ndk))]
   else []) ++
  (if after CreateOutputContainer s
   then held (snd (ret_ACaptureSessionOutputContainer_create ndk))
          [ACaptureSessionOutputContainer_free
             (snd (ret_ACaptureSessionOutputContainer_create ndk))]
   else []) ++
  (if after CreateSessionOutput s
   then held (snd (ret_ACaptureSessionOutput_create ndk))
          [ACaptureSessionOutput_free (snd (ret_ACaptureSessionOutput_create ndk))]
   else []) ++
  (if after CreateCaptureSession s
   then held (snd (ret_ACameraDevice_createCaptureSession ndk))
          [ACameraCaptureSession_stopRepeating
             (snd (ret_ACameraDevice_createCaptureSession ndk));
           ACameraCaptureSession_close
             (snd (ret_ACameraDevice_createCaptureSession ndk))]
   else []).

(** A provider keeps the NDK contract when each creation call whose status
    alone is checked by [startCapture] leaves a non-null handle on success. *)
Definition handle_on_success (r : camera_status_t * ptr) : bool :=
  negb (fst r =? ACAMERA_OK) || negb (is_null (snd r)).

Definition well_behaved (ndk : Ndk) : bool :=
  handle_on_success (ret_ACameraOutputTarget_create ndk) &&
  handle_on_success (ret_ACameraDevice_createCaptureRequest ndk) &&
  handle_on_success (ret_ACaptureSessionOutputContainer_create ndk) &&
  handle_on_success (ret_ACaptureSessionOutput_create ndk).

(** The dichotomy of the data model: all handles populated and capturing,
    or all handles null and not capturing. *)
Definition dichotomy (b : CameraEncoderBridge) : bool :=
  (all_populated b && capturing_ b) || (all_null b && negb (capturing_ b)).

(** What survives the device notifications: the handles are all populated
    or all null, and the flag is set only when they are populated. *)
Definition coherent (b : CameraEncoderBridge) : bool :=
  (all_populated b || all_null b) && implb (capturing_ b) (all_populated b).

Definition op_well_behaved (o : Op) : bool :=
  match o with
  | OpStartCapture ndk _ _ _ _ => well_behaved ndk
  | _ => true
  end.

Definition is_notification (o : Op) : bool :=
  match o with
  | OpDeviceDisconnected | OpDeviceError _ => true
  | _ => false
  end.

(** [filled buf base rows cols f]: the [rows] x [cols] cells packed from
    offset [base] of [buf] hold the bytes [f row col]. *)
Definition filled (buf : list Z) (base rows cols : Z) (f : Z -> Z -> Z) : Prop :=
  forall row col, 0 <= row < rows -> 0 <= col < cols ->
    byte_at buf (base + (row * cols + col)) = Some (f row col).



(** The frame fits: the dimensions are not negative and the product of
    line 286 stays inside [int32_t]. *)
Definition frame_fits (width height : Z) : Prop :=
  0 <= width /\ 0 <= height /\ width * height * 3 <= INT32_MAX.

(** The contents of the buffer after lines 290-330, when its allocation
    succeeds: [i420Size] zero bytes filled by the two copies. *)
Definition i420_pack (width height : Z) (yData uData vData : list Z)
    (yRowStride uvRowStride uvPixelStride : Z) : list Z :=
  i420_fill width height yData uData vData yRowStride uvRowStride uvPixelStride
    (replicate (Z.to_nat (i420Size width height)) 0).

(** The effects of a frame that reaches the callback: the construction of
    the buffer, the call, and then the release of the image, or the
    exception of the callback in its place. *)
Definition delivery (host : Host) (callback : FrameDataCallback)
    (image : AImage) (buffer : list Z) : list Event :=
  [vector_alloc (i420Size (imageWidth image) (imageHeight image));
   frameCallback_invoke callback buffer
     (i420Size (imageWidth image) (imageHeight image))
     (imageWidth image) (imageHeight image) (imageTimestamp image);
   if callback_throws host then exception_thrown callback_exception
   else AImage_delete image].

(** The offset at which the handler reads the luma byte of a cell: the
    cell's own offset in the single copy, the [int32_t] row product plus the
    column in the copy by rows. *)
Definition luma_offset (width yRowStride row col : Z) : Z :=
  if yRowStride =? width then row * width + col
  else mul32 row yRowStride + col.

(** The offset at which the handler reads a chroma byte of a cell, in each
    of its three branches. *)
Definition chroma_offset (uvWidth uvRowStride uvPixelStride row col : Z) : Z :=
  if uvPixelStride =? 1 then
    if uvRowStride =? uvWidth then row * uvWidth + col
    else mul32 row uvRowStride + col
  else add32 (mul32 row uvRowStride) (mul32 col uvPixelStride).

(** The contract of [AIMAGE_FORMAT_YUV_420_888], the format the reader is
    created with (lines 9 and 55): the U and V planes have the same row
    stride and the same pixel stride. *)
Definition same_chroma_strides (image : AImage) : Prop :=
  planeRowStride (plane2 image) = planeRowStride (plane1 image) /\
  planePixelStride (plane2 image) = planePixelStride (plane1 image).

(** Every cell of a plane lies inside its data: [rows] x [cols] cells read
    with the given strides. *)
Definition cells_inside (data : list Z) (rows cols rowStride pixelStride : Z)
    : Prop :=
  forall row col, 0 <= row < rows -> 0 <= col < cols ->
    0 <= row * rowStride + col * pixelStride < Z.of_nat (length data).

(** ** Concrete providers and inputs used by the examples *)

(** [ACAMERA_ERROR_UNKNOWN] and [AMEDIA_ERROR_UNKNOWN] are both -10000. *)
Definition ACAMERA_ERROR_UNKNOWN : camera_status_t := -10000.

(** A provider whose calls all succeed, except the call [s] when
    [failing = Some s], which reports an error and leaves a null handle. *)
Definition ndk_with (failing : option Step) : Ndk :=
  let fails s := match failing with
                 | Some s' => (step_index s =? step_index s')%nat
                 | None => false
                 end in
  let st s := if fails s then ACAMERA_ERROR_UNKNOWN else ACAMERA_OK in
  let out s p := if fails s then nullptr else p in
  {| manager_isValid := true;
     ret_AImageReader_new := (st NewImageReader, out NewImageReader 101);
     ret_AImageReader_setImageListener := st SetImageListener;
     ret_AImageReader_getWindow := (st GetWindow, out GetWindow 102);
     ret_ACameraManager_openCamera := (st OpenCamera, out OpenCamera 103);
     ret_ACameraOutputTarget_create :=
       (st CreateOutputTarget, out CreateOutputTarget 104);
     ret_ACameraDevice_createCaptureRequest :=
       (st CreateCaptureRequest, out CreateCaptureRequest 105);
     ret_ACaptureRequest_addTarget := st AddTargetToRequest;
     ret_ACaptureSessionOutputContainer_create :=
       (st CreateOutputContainer, out CreateOutputContainer 106);
     ret_ACaptureSessionOutput_create :=
       (st CreateSessionOutput, out CreateSessionOutput 107);
     ret_ACaptureSessionOutputContainer_add := st AddOutputToContainer;
     ret_ACameraDevice_createCaptureSession :=
       (st CreateCaptureSession, out CreateCaptureSession 108);
     ret_ACameraCaptureSession_setRepeatingRequest := st SetRepeatingRequest |}.

Definition ndk_ok : Ndk := ndk_with None.

(** A provider that breaks the NDK contract: [ACameraOutputTarget_create]
    reports success and leaves a null target. *)
Definition ndk_null_target : Ndk :=
  {| manager_isValid := true;
     ret_AImageReader_new := (AMEDIA_OK, 101);
     ret_AImageReader_setImageListener := AMEDIA_OK;
     ret_AImageReader_getWindow := (AMEDIA_OK, 102);
     ret_ACameraManager_openCamera := (ACAMERA_OK, 103);
     ret_ACameraOutputTarget_create := (ACAMERA_OK, nullptr);
     ret_ACameraDevice_createCaptureRequest := (ACAMERA_OK, 105);
     ret_ACaptureRequest_addTarget := ACAMERA_OK;
     ret_ACaptureSessionOutputContainer_create := (ACAMERA_OK, 106);
     ret_ACaptureSessionOutput_create := (ACAMERA_OK, 107);
     ret_ACaptureSessionOutputContainer_add := ACAMERA_OK;
     ret_ACameraDevice_createCaptureSession := (ACAMERA_OK, 108);
     ret_ACameraCaptureSession_setRepeatingRequest := ACAMERA_OK |}.
Definition ndk_failing_at (s : Step) : Ndk := ndk_with (Some s).

(** A session capturing camera "0". *)
Definition capturing0 : World :=
  Eval vm_compute in
    snd (startCapture ndk_ok "0" 640 480 (Some 7%nat) constructed).

(** A 4x4 frame whose luma rows are padded to a row stride of 8 (padding
    bytes 255) and hold the row index; planar 2x2 chroma planes. *)
Definition image_padded_luma : AImage :=
  {| imageWidth := 4; imageHeight := 4; imageTimestamp := 1000;
     plane0 := {| planeData := Some [0; 0; 0; 0; 255; 255; 255; 255;
                                     1; 1; 1; 1; 255; 255; 255; 255;
                                     2; 2; 2; 2; 255; 255; 255; 255;
                                     3; 3; 3; 3; 255; 255; 255; 255];
                  planeRowStride := 8; planePixelStride := 1 |};
     plane1 := {| planeData := Some [10; 10; 10; 10];
                  planeRowStride := 2; planePixelStride := 1 |};
     plane2 := {| planeData := Some [20; 20; 20; 20];
                  planeRowStride := 2; planePixelStride := 1 |} |}.

(** A 4x4 frame with interleaved chroma: one buffer U V U V ... with row
    stride 4, plane 2 starting one byte after plane 1. *)
Definition image_interleaved : AImage :=
  {| imageWidth := 4; imageHeight := 4; imageTimestamp := 2000;
     plane0 := {| planeData := Some [50; 51; 52; 53; 54; 55; 56; 57;
                                     58; 59; 60; 61; 62; 63; 64; 65];
                  planeRowStride := 4; planePixelStride := 1 |};
     plane1 := {| planeData := Some [30; 40; 31; 41; 32; 42; 33];
                  planeRowStride := 4; planePixelStride := 2 |};
     plane2 := {| planeData := Some [40; 31; 41; 32; 42; 33; 43];
                  planeRowStride := 4; planePixelStride := 2 |} |}.

(** A 32768 x 32768 frame: [width * height * 3] leaves [int32_t]. *)
Definition image_huge : AImage :=
  {| imageWidth := 32768; imageHeight := 32768; imageTimestamp := 4000;
     plane0 := {| planeData := Some [0]; planeRowStride := 32768;
                  planePixelStride := 1 |};
     plane1 := {| planeData := Some [0]; planeRowStride := 16384;
                  planePixelStride := 1 |};
     plane2 := {| planeData := Some [0]; planeRowStride := 16384;
                  planePixelStride := 1 |} |}.

(** A frame whose width is reported negative. *)
Definition image_negative : AImage :=
  {| imageWidth := -4; imageHeight := 4; imageTimestamp := 4500;
     plane0 := {| planeData := Some [0]; planeRowStride := 4;
                  planePixelStride := 1 |};
     plane1 := {| planeData := Some [0]; planeRowStride := 2;
                  planePixelStride := 1 |};
     plane2 := {| planeData := Some [0]; planeRowStride := 2;
                  planePixelStride := 1 |} |}.

(** A host on which nothing throws, one whose callback throws, and one
    whose allocations fail. *)
Definition host_fine : Host := {| new_fails := false; callback_throws := false |}.
Definition host_oom : Host := {| new_fails := true; callback_throws := false |}.


(** A frame of width 0. *)
Definition image_empty : AImage :=
  {| imageWidth := 0; imageHeight := 4; imageTimestamp := 5;
     plane0 := {| planeData := Some []; planeRowStride := 0;
                  planePixelStride := 1 |};
     plane1 := {| planeData := Some []; planeRowStride := 0;
                  planePixelStride := 1 |};
     plane2 := {| planeData := Some []; planeRowStride := 0;
                  planePixelStride := 1 |} |}.

(** ** Further vocabulary *)

(** [isCapturing] (camera_encoder_bridge.h, line 49). *)
Definition isCapturing (w : World) : bool := capturing_ (self w).

(** The twelve construction calls of [startCapture] with the arguments the
    source passes, when every handle is the one the provider left. *)
Definition construction_calls (ndk : Ndk) (cameraId : string)
    (width height : Z) : list Event :=
  [AImageReader_new width height kImageFormat kMaxImages;
   AImageReader_setImageListener (snd (ret_AImageReader_new ndk));
   AImageReader_getWindow (snd (ret_AImageReader_new ndk));
   ACameraManager_openCamera cameraId;
   ACameraOutputTarget_create (snd (ret_AImageReader_getWindow ndk));
   ACameraDevice_createCaptureRequest (snd (ret_ACameraManager_openCamera ndk))
     TEMPLATE_RECORD;
   ACaptureRequest_addTarget
     (snd (ret_ACameraDevice_createCaptureRequest ndk))
     (snd (ret_ACameraOutputTarget_create ndk));
   ACaptureSessionOutputContainer_create;
   ACaptureSessionOutput_create (snd (ret_AImageReader_getWindow ndk));
   ACaptureSessionOutputContainer_add
     (snd (ret_ACaptureSessionOutputContainer_create ndk))
     (snd (ret_ACaptureSessionOutput_create ndk));
   ACameraDevice_createCaptureSession
     (snd (ret_ACameraManager_openCamera ndk))
     (snd (ret_ACaptureSessionOutputContainer_create ndk));
   ACameraCaptureSession_setRepeatingRequest
     (snd (ret_ACameraDevice_createCaptureSession ndk))
     (snd (ret_ACameraDevice_createCaptureRequest ndk))].

(** The members after a start whose twelve checks all pass. *)
Definition started_object (ndk : Ndk) (cameraId : string)
    (callback : option FrameDataCallback) : CameraEncoderBridge :=
  {| capturing_ := true; currentCameraId_ := cameraId;
     cameraDevice_ := snd (ret_ACameraManager_openCamera ndk);
     captureSession_ := snd (ret_ACameraDevice_createCaptureSession ndk);
     outputContainer_ := snd (ret_ACaptureSessionOutputContainer_create ndk);
     sessionOutput_ := snd (ret_ACaptureSessionOutput_create ndk);
     outputTarget_ := snd (ret_ACameraOutputTarget_create ndk);
     captureRequest_ := snd (ret_ACameraDevice_createCaptureRequest ndk);
     imageReader_ := snd (ret_AImageReader_new ndk);
     imageReaderWindow_ := snd (ret_AImageReader_getWindow ndk);
     frameCallback_ := callback |}.

(** The handle a release call is made on. *)
Definition released_handle (e : Event) : option ptr :=
  match e with
  | ACameraCaptureSession_stopRepeating p | ACameraCaptureSession_close p
  | ACameraDevice_close p | ACaptureRequest_free p | ACameraOutputTarget_free p
  | ACaptureSessionOutput_free p | ACaptureSessionOutputContainer_free p
  | AImageReader_delete p => Some p
  | _ => None
  end.

Definition is_frame_callback (e : Event) : bool :=
  match e with frameCallback_invoke _ _ _ _ _ _ => true | _ => false end.

(** The packed buffer, byte by byte: the luma cells, the U cells, the V
    cells, and zero in what is left of the [width*height*3/2] bytes. *)
Definition i420_byte (width height : Z) (yData uData vData : list Z)
    (yRowStride uvRowStride uvPixelStride : Z) (j : Z) : Z :=
  let uvWidth := Z.quot width 2 in
  let uvHeight := Z.quot height 2 in
  if j <? width * height then
    peek yData (j / width * yRowStride + j mod width)
  else if j <? width * height + uvWidth * uvHeight then
    let k := j - width * height in
    peek uData (k / uvWidth * uvRowStride + k mod uvWidth * uvPixelStride)
  else if j <? width * height + 2 * (uvWidth * uvHeight) then
    let k := j - width * height - uvWidth * uvHeight in
    peek vData (k / uvWidth * uvRowStride + k mod uvWidth * uvPixelStride)
  else 0.

Definition i420_bytes (width height : Z) (yData uData vData : list Z)
    (yRowStride uvRowStride uvPixelStride : Z) : list Z :=
  i420_byte width height yData uData vData yRowStride uvRowStride uvPixelStride
    <$> seqZ 0 (Z.quot (width * height * 3) 2).

(** * Proofs *)

(** ** Tactics *)

(** Inclusion of a concatenation of chunks in another, chunk by chunk. *)
Ltac incl_chunk :=
  solve [ apply incl_nil_l
        | apply incl_refl
        | apply incl_appl; incl_chunk
        | apply incl_appr; incl_chunk ].

Ltac incl_chunks :=
  repeat (apply incl_app; [incl_chunk|]); incl_chunk.

(** Projections of updated objects and of provider answers. *)
Ltac world_norm :=
  cbv [upd emit emit_all self trace fst snd
       set_capturing set_currentCameraId set_cameraDevice set_captureSession
       set_outputContainer set_sessionOutput set_outputTarget set_captureRequest
       set_imageReader set_imageReaderWindow set_frameCallback
       capturing_ currentCameraId_ cameraDevice_ captureSession_
       outputContainer_ sessionOutput_ outputTarget_ captureRequest_
       imageReader_ imageReaderWindow_ frameCallback_] in *.

Ltac ndk_norm :=
  cbv [manager_isValid ret_AImageReader_new ret_AImageReader_setImageListener
       ret_AImageReader_getWindow ret_ACameraManager_openCamera
       ret_ACameraOutputTarget_create ret_ACameraDevice_createCaptureRequest
       ret_ACaptureRequest_addTarget ret_ACaptureSessionOutputContainer_create
       ret_ACaptureSessionOutput_create ret_ACaptureSessionOutputContainer_add
       ret_ACameraDevice_createCaptureSession
       ret_ACameraCaptureSession_setRepeatingRequest] in *.

(** Range conditions on numerals. *)
Ltac in_range := split; [apply Z.leb_le|apply Z.ltb_lt]; reflexivity.

(** ** cleanup *)

Lemma is_null_true p : is_null p = true -> p = nullptr.
Proof. unfold is_null. intros H. apply Z.eqb_eq in H. exact H. Qed.

Lemma self_upd f w : self (upd f w) = f (self w).
Proof. reflexivity. Qed.
Lemma trace_upd f w : trace (upd f w) = trace w.
Proof. reflexivity. Qed.
Lemma self_emit e w : self (emit e w) = self w.
Proof. reflexivity. Qed.
Lemma trace_emit e w : trace (emit e w) = trace w ++ [e].
Proof. reflexivity. Qed.

Lemma self_release get set calls w :
  (forall b, set (get b) b = b) ->
  self (release get set calls w) = set nullptr (self w).
Proof.
  intros Hlens. unfold release.
  destruct (is_null (get (self w))) eqn:E; [|reflexivity].
  apply is_null_true in E. rewrite <- E at 1. symmetry. apply Hlens.
Qed.

Lemma trace_release get set calls w :
  trace (release get set calls w)
  = trace w ++ held (get (self w)) (calls (get (self w))).
Proof.
  unfold release, held. destruct (is_null (get (self w))); cbn.
  - symmetry. apply app_nil_r.
  - reflexivity.
Qed.

Create Rewrite HintDb world.
#[global] Hint Rewrite self_upd trace_upd self_emit trace_emit trace_release : world.
#[global] Hint Rewrite self_release using (intros []; reflexivity) : world.

Lemma cleanup_self w : self (cleanup w) = fresh.
Proof.
  unfold cleanup. cbv zeta. autorewrite with world.
  destruct (self w). reflexivity.
Qed.

Lemma cleanup_trace w : trace (cleanup w) = trace w ++ releases (self w).
Proof.
  unfold cleanup. cbv zeta. autorewrite with world.
  destruct (self w). unfold releases. cbn.
  rewrite <- !app_assoc. reflexivity.
Qed.

(** ** startCapture *)

Lemma build_pipeline_spec ndk cameraId width height callback w o w' :
  build_pipeline ndk cameraId width height callback w = (o, w') ->
  match o with
  | AlreadyCapturing => False
  | ManagerInvalid => w' = w
  | StepFailed s =>
      exists wf calls,
        w' = cleanup wf /\
        trace wf = trace w ++ calls /\
        filter is_release calls = [] /\
        incl (owed_before ndk s) (releases (self wf))
  | Started =>
      capturing_ (self w') = true /\
      currentCameraId_ (self w') = cameraId /\
      frameCallback_ (self w') = callback /\
      (well_behaved ndk = true -> all_populated (self w') = true) /\
      exists calls, trace w' = trace w ++ calls /\ filter is_release calls = []
  end.
Proof.
  destruct ndk as [v [s1 p1] s2 [s3 p3] [s4 p4] [s5 p5] [s6 p6] s7 [s8 p8]
                     [s9 p9] s10 [s11 p11] s12].
  destruct w as [[c i d s oc so ot cr ir iw cb] t].
  unfold build_pipeline, well_behaved, handle_on_success.
  cbv [manager_isValid ret_AImageReader_new ret_AImageReader_setImageListener
       ret_AImageReader_getWindow ret_ACameraManager_openCamera
       ret_ACameraOutputTarget_create ret_ACameraDevice_createCaptureRequest
       ret_ACaptureRequest_addTarget ret_ACaptureSessionOutputContainer_create
       ret_ACaptureSessionOutput_create ret_ACaptureSessionOutputContainer_add
       ret_ACameraDevice_createCaptureSession
       ret_ACameraCaptureSession_setRepeatingRequest].
  world_norm.
  intros H.
  repeat match type of H with
  | (if ?c then _ else _) = _ =>
      let E := fresh "E" in
      destruct c eqn:E;
      [ injection H as <- <-;
        try (eexists _, _; split; [reflexivity|]; world_norm;
             split; [rewrite <- ?app_assoc; reflexivity|];
             split; [reflexivity|])
      |]
  end.
  all: try reflexivity.
  all: try (unfold owed_before, releases; cbn [after step_index Nat.ltb Nat.leb];
            world_norm;
            cbv [ret_AImageReader_new ret_ACameraManager_openCamera
                 ret_ACameraOutputTarget_create
                 ret_ACameraDevice_createCaptureRequest
                 ret_ACaptureSessionOutputContainer_create
                 ret_ACaptureSessionOutput_create
                 ret_ACameraDevice_createCaptureSession snd];
            incl_chunks).
  injection H as <- <-. world_norm.
  repeat split.
  - intros Hwb. unfold all_populated, handles. world_norm. cbn [forallb].
    repeat match goal with
    | H : _ || _ = false |- _ => apply orb_false_elim in H; destruct H as [_ H]
    end.
    cbn [orb] in Hwb.
    repeat (apply andb_prop in Hwb; destruct Hwb as [Hwb ?]).
    repeat match goal with
    | H : negb _ = true |- _ => apply negb_true_iff in H
    end.
    repeat match goal with
    | H : is_null _ = false |- _ => rewrite H; clear H
    end.
    reflexivity.
  - eexists. split; [rewrite <- ?app_assoc; reflexivity|reflexivity].
Qed.

(** The first failing check decides where the construction leaves. *)
Lemma build_pipeline_outcome ndk cameraId width height callback w :
  manager_isValid ndk = true ->
  fst (build_pipeline ndk cameraId width height callback w)
  = match first_failure ndk with
    | Some s => StepFailed s
    | None => Started
    end.
Proof.
  intros Hv.
  destruct ndk as [v [s1 p1] s2 [s3 p3] [s4 p4] [s5 p5] [s6 p6] s7 [s8 p8]
                     [s9 p9] s10 [s11 p11] s12].
  destruct w as [[c i d ss oc so ot cr ir iw cb] t].
  unfold build_pipeline, first_failure, construction.
  cbn [find step_fails]. ndk_norm. world_norm. subst v. cbn [negb].
  repeat match goal with
  | |- (let (_, _) := if ?c then _ else _ in _) = _ =>
      destruct c; [reflexivity|]
  end.
  reflexivity.
Qed.

Lemma first_failure_at ndk s :
  (forall s', after s' s = true -> step_fails ndk s' = false) ->
  step_fails ndk s = true ->
  first_failure ndk = Some s.
Proof.
  intros Hprev Hs. unfold first_failure, construction.
  destruct s; cbn [find];
    repeat (rewrite Hprev by reflexivity); rewrite Hs; reflexivity.
Qed.

Lemma build_pipeline_fails_at ndk cameraId width height callback w s :
  manager_isValid ndk = true ->
  (forall s', after s' s = true -> step_fails ndk s' = false) ->
  step_fails ndk s = true ->
  fst (build_pipeline ndk cameraId width height callback w) = StepFailed s.
Proof.
  intros Hv Hprev Hs.
  rewrite build_pipeline_outcome by exact Hv.
  rewrite (first_failure_at ndk s Hprev Hs). reflexivity.
Qed.

Lemma build_pipeline_trace ndk cameraId width height callback w :
  exists rest,
    trace (snd (build_pipeline ndk cameraId width height callback w))
    = trace w ++ rest.
Proof.
  destruct (build_pipeline ndk cameraId width height callback w) as [o w'] eqn:E.
  apply build_pipeline_spec in E. cbn [snd]. destruct o.
  - contradiction.
  - subst w'. exists []. symmetry. apply app_nil_r.
  - destruct E as (wf & calls & -> & Hwf & _ & _).
    exists (calls ++ releases (self wf)).
    rewrite cleanup_trace, Hwf, <- app_assoc. reflexivity.
  - destruct E as (_ & _ & _ & _ & calls & -> & _). exists calls. reflexivity.
Qed.

Lemma startCapture_at_not_capturing ndk cameraId width height callback w :
  capturing_ (self w) = false ->
  startCapture_at ndk cameraId width height callback w
  = build_pipeline ndk cameraId width height callback w.
Proof. intros H. unfold startCapture_at. rewrite H. reflexivity. Qed.

Lemma startCapture_at_switch ndk cameraId width height callback w :
  capturing_ (self w) = true ->
  currentCameraId_ (self w) <> cameraId ->
  startCapture_at ndk cameraId width height callback w
  = build_pipeline ndk cameraId width height callback (cleanup w).
Proof.
  intros H Hne. unfold startCapture_at. rewrite H.
  apply String.eqb_neq in Hne. rewrite Hne. reflexivity.
Qed.

Lemma stopCapture_not_capturing w :
  capturing_ (self w) = false -> stopCapture w = w.
Proof. intros H. unfold stopCapture. rewrite H. reflexivity. Qed.

Lemma world_eq w1 w2 : self w1 = self w2 -> trace w1 = trace w2 -> w1 = w2.
Proof. destruct w1, w2. cbn. intros -> ->. reflexivity. Qed.

Lemma releases_fresh : releases fresh = [].
Proof. reflexivity. Qed.

Lemma cleanup_cleanup w : cleanup (cleanup w) = cleanup w.
Proof.
  apply world_eq.
  - rewrite !cleanup_self. reflexivity.
  - rewrite (cleanup_trace (cleanup w)), cleanup_self, releases_fresh.
    apply app_nil_r.
Qed.

(** ** The invariant of the handles *)

Lemma dichotomy_coherent b : dichotomy b = true -> coherent b = true.
Proof.
  unfold dichotomy, coherent.
  destruct (all_populated b), (all_null b), (capturing_ b); cbn; congruence.
Qed.

Lemma dichotomy_cleanup w : dichotomy (self (cleanup w)) = true.
Proof. rewrite cleanup_self. reflexivity. Qed.

Lemma dichotomy_started b :
  capturing_ b = true -> all_populated b = true -> dichotomy b = true.
Proof. unfold dichotomy. intros -> ->. reflexivity. Qed.

Lemma build_pipeline_dichotomy ndk cameraId width height callback w :
  well_behaved ndk = true ->
  dichotomy (self w) = true ->
  dichotomy (self (snd (build_pipeline ndk cameraId width height callback w)))
  = true.
Proof.
  intros Hwb Hw.
  destruct (build_pipeline ndk cameraId width height callback w) as [o w'] eqn:E.
  apply build_pipeline_spec in E. cbn [snd]. destruct o.
  - contradiction.
  - subst w'. exact Hw.
  - destruct E as (wf & calls & -> & _). apply dichotomy_cleanup.
  - destruct E as (Hc & _ & _ & Hp & _). auto using dichotomy_started.
Qed.

Lemma build_pipeline_coherent ndk cameraId width height callback w :
  well_behaved ndk = true ->
  coherent (self w) = true ->
  coherent (self (snd (build_pipeline ndk cameraId width height callback w)))
  = true.
Proof.
  intros Hwb Hw.
  destruct (build_pipeline ndk cameraId width height callback w) as [o w'] eqn:E.
  apply build_pipeline_spec in E. cbn [snd]. destruct o.
  - contradiction.
  - subst w'. exact Hw.
  - destruct E as (wf & calls & -> & _).
    apply dichotomy_coherent, dichotomy_cleanup.
  - destruct E as (Hc & _ & _ & Hp & _).
    auto using dichotomy_coherent, dichotomy_started.
Qed.

Lemma startCapture_at_cases ndk cameraId width height callback w :
  startCapture_at ndk cameraId width height callback w = (AlreadyCapturing, w) \/
  startCapture_at ndk cameraId width height callback w
  = build_pipeline ndk cameraId width height callback w \/
  startCapture_at ndk cameraId width height callback w
  = build_pipeline ndk cameraId width height callback (cleanup w).
Proof.
  unfold startCapture_at.
  destruct (capturing_ (self w)); cbn [andb]; [|auto].
  destruct (String.eqb _ _); auto.
Qed.

Lemma perform_dichotomy w o :
  op_well_behaved o = true -> is_notification o = false ->
  dichotomy (self w) = true -> dichotomy (self (perform w o)) = true.
Proof.
  intros Hwb Hn Hw. destruct o as [ndk cameraId width height callback| | | |];
    cbn in Hn; try discriminate; cbn [perform].
  - unfold startCapture. cbn [snd].
    destruct (startCapture_at_cases ndk cameraId width height callback w)
      as [-> | [-> | ->]]; [exact Hw| |];
      auto using build_pipeline_dichotomy, dichotomy_cleanup.
  - unfold stopCapture. destruct (capturing_ (self w)); cbn [negb];
      auto using dichotomy_cleanup.
  - apply dichotomy_cleanup.
Qed.

Lemma coherent_flag_cleared b :
  coherent b = true -> coherent (set_capturing false b) = true.
Proof.
  unfold coherent, all_populated, all_null, handles. destruct b. cbn.
  intros H. apply andb_prop in H as [-> _]. reflexivity.
Qed.

Lemma perform_coherent w o :
  op_well_behaved o = true ->
  coherent (self w) = true -> coherent (self (perform w o)) = true.
Proof.
  intros Hwb Hw. destruct o as [ndk cameraId width height callback| | | |];
    cbn [perform].
  - unfold startCapture. cbn [snd].
    destruct (startCapture_at_cases ndk cameraId width height callback w)
      as [-> | [-> | ->]]; [exact Hw| |];
      auto using build_pipeline_coherent, dichotomy_coherent, dichotomy_cleanup.
  - unfold stopCapture. destruct (capturing_ (self w)); cbn [negb];
      auto using dichotomy_coherent, dichotomy_cleanup.
  - auto using dichotomy_coherent, dichotomy_cleanup.
  - apply coherent_flag_cleared, Hw.
  - apply coherent_flag_cleared, Hw.
Qed.

Lemma run_snoc ops o w : run (ops ++ [o]) w = perform (run ops w) o.
Proof. unfold run. rewrite foldl_app. reflexivity. Qed.

(** ** Session life cycle: the claims *)

(** C1. Rollback completeness.  When [startCapture] leaves through the
    [return false] that follows the check of one of its twelve
    construction calls, it returns [false], all eight handles are null,
    the camera identifier is empty, the callback is dropped and the flag is
    clear.  The state it ends in is [cleanup] of the state [wf] reached at
    the failing check: the trace ends with the release calls of every handle
    [wf] holds, and these include the release of each handle that the calls
    before the failing one left in the object.  And the start does leave
    there: unless it is suppressed as a restart or the manager is invalid,
    it leaves at the first call whose check fails. *)
Theorem startCapture_rollback :
  (forall ndk cameraId width height callback w s w',
     startCapture_at ndk cameraId width height callback w = (StepFailed s, w') ->
     startCapture ndk cameraId width height callback w = (false, w') /\
     all_null (self w') = true /\
     currentCameraId_ (self w') = EmptyString /\
     frameCallback_ (self w') = None /\
     capturing_ (self w') = false /\
     exists wf,
       w' = cleanup wf /\
       (exists calls, trace wf = trace w ++ calls) /\
       trace w' = trace wf ++ releases (self wf) /\
       incl (owed_before ndk s) (releases (self wf)))
  /\
  (forall ndk cameraId width height callback w s,
     capturing_ (self w) && String.eqb (currentCameraId_ (self w)) cameraId
     = false ->
     manager_isValid ndk = true ->
     (forall s', after s' s = true -> step_fails ndk s' = false) ->
     step_fails ndk s = true ->
     fst (startCapture_at ndk cameraId width height callback w) = StepFailed s).
Proof.
  split.
  - intros ndk cameraId width height callback w s w' H.
    split; [unfold startCapture; rewrite H; reflexivity|].
    assert (exists w1 pre,
               trace w1 = trace w ++ pre /\
               build_pipeline ndk cameraId width height callback w1
               = (StepFailed s, w')) as (w1 & pre & Hpre & Hb).
    { destruct (startCapture_at_cases ndk cameraId width height callback w)
        as [E | [E | E]]; rewrite E in H.
      - discriminate.
      - exists w, []. split; [symmetry; apply app_nil_r|exact H].
      - exists (cleanup w), (releases (self w)).
        split; [apply cleanup_trace|exact H]. }
    apply build_pipeline_spec in Hb.
    destruct Hb as (wf & calls & -> & Hwf & _ & Hincl).
    rewrite cleanup_self. repeat split.
    exists wf. repeat split.
    + exists (pre ++ calls). rewrite Hwf, Hpre, <- app_assoc. reflexivity.
    + apply cleanup_trace.
    + exact Hincl.
  - intros ndk cameraId width height callback w s Hentry Hv Hprev Hs.
    unfold startCapture_at. rewrite Hentry.
    apply build_pipeline_fails_at; assumption.
Qed.

(** A switch to camera "1" that fails when the capture session is created,
    after the reader, its window, the device, the target, the request, the
    container and the session output were acquired. *)
Lemma startCapture_rollback_witness :
  let r := startCapture_at (ndk_failing_at CreateCaptureSession) "1" 1280 720
             (Some 9%nat) capturing0 in
  r = (StepFailed CreateCaptureSession, snd r) /\
  startCapture (ndk_failing_at CreateCaptureSession) "1" 1280 720
    (Some 9%nat) capturing0 = (false, snd r) /\
  all_null (self (snd r)) = true /\
  incl [AImageReader_delete 101; ACameraDevice_close 103;
        ACameraOutputTarget_free 104; ACaptureRequest_free 105;
        ACaptureSessionOutputContainer_free 106; ACaptureSessionOutput_free 107]
       (skipn (length (trace capturing0)) (trace (snd r))).
Proof.
  cbv zeta.
  assert (startCapture_at (ndk_failing_at CreateCaptureSession) "1" 1280 720
            (Some 9%nat) capturing0
          = (StepFailed CreateCaptureSession,
             snd (startCapture_at (ndk_failing_at CreateCaptureSession) "1"
                    1280 720 (Some 9%nat) capturing0))) as H
    by (vm_compute; reflexivity).
  split; [exact H|].
  destruct (proj1 startCapture_rollback _ _ _ _ _ _ _ _ H) as (Hret & Hnull & _).
  split; [exact Hret|]. split; [exact Hnull|].
  vm_compute. intros e He. tauto.
Defined.

(** C2 as stated fails: after a successful start, a disconnect notification
    clears the flag and leaves all eight handles populated. *)
Lemma dichotomy_broken_by_disconnect :
  ~ (forall ops, dichotomy (self (run ops constructed)) = true).
Proof.
  intros H.
  specialize (H [OpStartCapture ndk_ok "0" 640 480 (Some 7%nat);
                 OpDeviceDisconnected]).
  vm_compute in H. discriminate H.
Qed.

(** C2, amended.  For providers that keep the NDK contract, in every state
    reached from the constructed object by [startCapture], [stopCapture],
    [cleanup] and device notifications, the eight handles are all populated
    or all null, and the flag is set only when they are populated; as long
    as no device notification was delivered the dichotomy holds in full. *)
Theorem handles_coherent ops :
  forallb op_well_behaved ops = true ->
  let b := self (run ops constructed) in
  (all_populated b = true \/ all_null b = true) /\
  (capturing_ b = true -> all_populated b = true) /\
  (forallb (fun o => negb (is_notification o)) ops = true ->
   dichotomy b = true).
Proof.
  intros Hwb. cbv zeta.
  assert (coherent (self (run ops constructed)) = true /\
          (forallb (fun o => negb (is_notification o)) ops = true ->
           dichotomy (self (run ops constructed)) = true)) as [Hc Hd].
  { induction ops as [|o ops IH] using rev_ind.
    - split; reflexivity.
    - rewrite forallb_app in Hwb. apply andb_prop in Hwb as [Hwb Ho].
      cbn in Ho. rewrite andb_true_r in Ho.
      destruct (IH Hwb) as [IHc IHd]. rewrite run_snoc. split.
      + apply perform_coherent; assumption.
      + rewrite forallb_app. intros Hn. apply andb_prop in Hn as [Hn Hno].
        cbn in Hno. rewrite andb_true_r in Hno.
        apply negb_true_iff in Hno. apply perform_dichotomy; auto. }
  unfold coherent in Hc. apply andb_prop in Hc as [Hc1 Hc2].
  apply orb_prop in Hc1. repeat split; [exact Hc1| |exact Hd].
  intros Hcap. rewrite Hcap in Hc2. exact Hc2.
Qed.

Lemma handles_coherent_witness :
  let ops := [OpStartCapture ndk_ok "0" 640 480 (Some 7%nat);
              OpDeviceDisconnected;
              OpStartCapture (ndk_failing_at OpenCamera) "1" 640 480 None] in
  forallb op_well_behaved ops = true /\
  (all_populated (self (run ops constructed)) = true \/
   all_null (self (run ops constructed)) = true).
Proof.
  cbv zeta. split; [reflexivity|].
  exact (proj1 (handles_coherent
                  [OpStartCapture ndk_ok "0" 640 480 (Some 7%nat);
                   OpDeviceDisconnected;
                   OpStartCapture (ndk_failing_at OpenCamera) "1" 640 480 None]
                  eq_refl)).
Defined.

(** C7. [stopCapture] is idempotent: it changes nothing when the object is
    not capturing, a second [stopCapture] changes nothing after a first, and
    a second [cleanup] changes nothing after a first, because the first
    leaves no handle for which a release call would be made. *)
Theorem stopCapture_idempotent w :
  (capturing_ (self w) = false -> stopCapture w = w) /\
  stopCapture (stopCapture w) = stopCapture w /\
  cleanup (cleanup w) = cleanup w /\
  releases (self (cleanup w)) = [].
Proof.
  split; [apply stopCapture_not_capturing|]. split; [|split].
  - unfold stopCapture at 2 3. destruct (capturing_ (self w)) eqn:E; cbn [negb].
    + apply stopCapture_not_capturing. rewrite cleanup_self. reflexivity.
    + apply stopCapture_not_capturing, E.
  - apply cleanup_cleanup.
  - rewrite cleanup_self. reflexivity.
Qed.

Lemma stopCapture_idempotent_witness :
  capturing_ (self constructed) = false /\ stopCapture constructed = constructed.
Proof.
  split; [reflexivity|].
  exact (proj1 (stopCapture_idempotent constructed) eq_refl).
Defined.

(** C8. Restart suppression: a [startCapture] for the camera that is being
    captured returns [true] and leaves the object and the trace as they
    were. *)
Theorem startCapture_same_camera ndk cameraId width height callback w :
  capturing_ (self w) = true ->
  currentCameraId_ (self w) = cameraId ->
  startCapture ndk cameraId width height callback w = (true, w).
Proof.
  intros Hc Hid. unfold startCapture, startCapture_at.
  rewrite Hc, Hid, String.eqb_refl. reflexivity.
Qed.

Lemma startCapture_same_camera_witness :
  capturing_ (self capturing0) = true /\
  currentCameraId_ (self capturing0) = "0"%string /\
  startCapture (ndk_failing_at NewImageReader) "0" 1920 1080 None capturing0
  = (true, capturing0).
Proof.
  split; [reflexivity|]. split; [reflexivity|].
  exact (startCapture_same_camera (ndk_failing_at NewImageReader) "0"%string
           1920 1080 None capturing0 eq_refl eq_refl).
Defined.

(** C9. Switching cameras: a [startCapture] for another camera while
    capturing behaves as the same [startCapture] on the object torn down by
    [cleanup]; that object has all handles null and the flag clear, and the
    release calls of every handle of the old pipeline come in the trace
    before anything the new start does. *)
Theorem startCapture_switch ndk cameraId width height callback w :
  capturing_ (self w) = true ->
  currentCameraId_ (self w) <> cameraId ->
  startCapture ndk cameraId width height callback w
  = startCapture ndk cameraId width height callback (cleanup w) /\
  all_null (self (cleanup w)) = true /\
  capturing_ (self (cleanup w)) = false /\
  trace (cleanup w) = trace w ++ releases (self w) /\
  exists rest,
    trace (snd (startCapture ndk cameraId width height callback w))
    = trace w ++ releases (self w) ++ rest.
Proof.
  intros Hc Hne.
  assert (startCapture ndk cameraId width height callback w
          = startCapture ndk cameraId width height callback (cleanup w)) as Heq.
  { unfold startCapture.
    rewrite (startCapture_at_switch _ _ _ _ _ _ Hc Hne).
    rewrite startCapture_at_not_capturing by (rewrite cleanup_self; reflexivity).
    reflexivity. }
  split; [exact Heq|]. rewrite cleanup_self. repeat split.
  - apply cleanup_trace.
  - unfold startCapture. cbn [snd].
    rewrite (startCapture_at_switch _ _ _ _ _ _ Hc Hne).
    destruct (build_pipeline_trace ndk cameraId width height callback (cleanup w))
      as [rest Hrest].
    exists rest. rewrite Hrest, cleanup_trace, <- app_assoc. reflexivity.
Qed.

Lemma startCapture_switch_witness :
  capturing_ (self capturing0) = true /\
  currentCameraId_ (self capturing0) <> "1"%string /\
  startCapture ndk_ok "1" 640 480 (Some 8%nat) capturing0
  = startCapture ndk_ok "1" 640 480 (Some 8%nat) (cleanup capturing0).
Proof.
  split; [reflexivity|].
  assert (currentCameraId_ (self capturing0) <> "1"%string) as Hne
    by (vm_compute; discriminate).
  split; [exact Hne|].
  exact (proj1 (startCapture_switch ndk_ok "1"%string 640 480 (Some 8%nat)
                  capturing0 eq_refl Hne)).
Defined.

(** C10. The device notifications clear the flag and nothing else: the
    handles and the trace stay as they were.  From any state whose flag is
    clear, [stopCapture] and the destructor return at once, whatever the
    handles hold; so after a successful start and a disconnect, stopping
    and destroying the object makes no release call and leaves all eight
    handles populated. *)
Theorem stopCapture_after_disconnect_releases_nothing :
  (forall w error,
     capturing_ (self (onDeviceDisconnected w)) = false /\
     capturing_ (self (onDeviceError error w)) = false /\
     handles (self (onDeviceDisconnected w)) = handles (self w) /\
     handles (self (onDeviceError error w)) = handles (self w) /\
     trace (onDeviceDisconnected w) = trace w /\
     trace (onDeviceError error w) = trace w) /\
  (forall w,
     capturing_ (self w) = false -> stopCapture w = w /\ destructor w = w) /\
  (let w := destructor (stopCapture (onDeviceDisconnected capturing0)) in
   capturing_ (self w) = false /\
   all_populated (self w) = true /\
   filter is_release (trace w) = []).
Proof.
  split; [|split].
  - intros w error. destruct w as [[] t]. repeat split.
  - intros w H. unfold destructor.
    rewrite stopCapture_not_capturing by exact H. split; reflexivity.
  - vm_compute. repeat split.
Qed.

Lemma stopCapture_after_disconnect_releases_nothing_witness :
  capturing_ (self (onDeviceError 3 capturing0)) = false /\
  stopCapture (onDeviceError 3 capturing0) = onDeviceError 3 capturing0.
Proof.
  split; [reflexivity|].
  exact (proj1 (proj1 (proj2 stopCapture_after_disconnect_releases_nothing)
                  (onDeviceError 3 capturing0) eq_refl)).
Defined.

(** ** Buffers, loops and memcpy *)

Section Buffers.
Implicit Types (l dst src buf : list Z) (i j k n v : Z).

Lemma length_poke l i v : length (poke l i v) = length l.
Proof. unfold poke. destruct (_ && _); [apply length_insert|reflexivity]. Qed.

Lemma byte_at_poke_eq l i v :
  0 <= i < Z.of_nat (length l) -> byte_at (poke l i v) i = Some v.
Proof.
  intros Hi. unfold poke, byte_at.
  replace (0 <=? i) with true by (symmetry; apply Z.leb_le; lia).
  replace (i <? Z.of_nat (length l)) with true by (symmetry; apply Z.ltb_lt; lia).
  replace (i <? 0) with false by (symmetry; apply Z.ltb_ge; lia).
  cbn [andb]. apply list_lookup_insert_eq. lia.
Qed.

Lemma byte_at_poke_ne l i j v : i <> j -> byte_at (poke l i v) j = byte_at l j.
Proof.
  intros Hne. unfold poke, byte_at.
  destruct (j <? 0) eqn:Hj; [reflexivity|]. apply Z.ltb_ge in Hj.
  destruct (0 <=? i) eqn:Hi; cbn [andb]; [|reflexivity].
  apply Z.leb_le in Hi.
  destruct (i <? Z.of_nat (length l)); [|reflexivity].
  apply list_lookup_insert_ne. lia.
Qed.

Lemma byte_at_Some l i v : byte_at l i = Some v -> peek l i = v.
Proof. unfold peek. intros ->. reflexivity. Qed.

Lemma byte_at_zeros n i :
  0 <= i < n -> byte_at (replicate (Z.to_nat n) 0) i = Some 0.
Proof.
  intros Hi. unfold byte_at.
  replace (i <? 0) with false by (symmetry; apply Z.ltb_ge; lia).
  apply lookup_replicate_2. lia.
Qed.

Lemma length_zeros n :
  0 <= n -> Z.of_nat (length (replicate (Z.to_nat n) (0 : Z))) = n.
Proof. intros Hn. rewrite length_replicate. lia. Qed.

(** The invariant rule of the counting loop. *)
Lemma for_loop_inv {S : Type} (P : Z -> S -> Prop) n (body : Z -> S -> S) s :
  P 0 s ->
  (forall i s, 0 <= i < n -> P i s -> P (i + 1) (body i s)) ->
  P (Z.max 0 n) (for_loop n body s).
Proof.
  intros H0 Hstep. unfold for_loop.
  destruct (Z.le_gt_cases n 0) as [Hn|Hn].
  { rewrite seqZ_nil by exact Hn. rewrite Z.max_l by exact Hn. exact H0. }
  rewrite Z.max_r by lia.
  rewrite <- (Z2Nat.id n) at 1 2 by lia.
  assert (Z.of_nat (Z.to_nat n) <= n) as Hle by lia.
  induction (Z.to_nat n) as [|m IH].
  - exact H0.
  - rewrite seqZ_S, foldl_app. cbn [foldl].
    replace (Z.of_nat (Datatypes.S m)) with (Z.of_nat m + 1) by lia.
    rewrite Z.add_0_l. apply Hstep; [lia|]. apply IH. lia.
Qed.

Lemma memcpy_spec dst doff src soff n :
  length (memcpy dst doff src soff n) = length dst /\
  (forall j, doff <= j < doff + n -> 0 <= j < Z.of_nat (length dst) ->
             byte_at (memcpy dst doff src soff n) j
             = Some (peek src (soff + (j - doff)))) /\
  (forall j, ~ (doff <= j < doff + n) ->
             byte_at (memcpy dst doff src soff n) j = byte_at dst j).
Proof.
  unfold memcpy.
  pose (P := fun (i : Z) (b : list Z) =>
    length b = length dst /\
    (forall j, doff <= j < doff + i -> 0 <= j < Z.of_nat (length dst) ->
               byte_at b j = Some (peek src (soff + (j - doff)))) /\
    (forall j, ~ (doff <= j < doff + i) -> byte_at b j = byte_at dst j)).
  assert (P (Z.max 0 n)
            (for_loop n (fun k b => poke b (doff + k) (peek src (soff + k))) dst))
    as (Hlen & Hin & Hout).
  { apply for_loop_inv; unfold P.
    - split; [reflexivity|]. split; [intros; lia|intros; reflexivity].
    - intros i b Hi (Hlen & Hin & Hout). split; [|split].
      + rewrite length_poke. exact Hlen.
      + intros j Hj Hr. destruct (Z.eq_dec j (doff + i)) as [->|Hne].
        * rewrite byte_at_poke_eq by (rewrite Hlen; lia).
          do 2 f_equal. lia.
        * rewrite byte_at_poke_ne by lia. apply Hin; lia.
      + intros j Hj. rewrite byte_at_poke_ne by lia. apply Hout. lia. }
  split; [exact Hlen|]. split.
  - intros j Hj Hr. apply Hin; lia.
  - intros j Hj. apply Hout. lia.
Qed.

Lemma length_memcpy dst doff src soff n :
  length (memcpy dst doff src soff n) = length dst.
Proof. apply memcpy_spec. Qed.

Lemma byte_at_memcpy_in dst doff src soff n j :
  doff <= j < doff + n -> 0 <= j < Z.of_nat (length dst) ->
  byte_at (memcpy dst doff src soff n) j = Some (peek src (soff + (j - doff))).
Proof. apply memcpy_spec. Qed.

Lemma byte_at_memcpy_out dst doff src soff n j :
  ~ (doff <= j < doff + n) ->
  byte_at (memcpy dst doff src soff n) j = byte_at dst j.
Proof. apply memcpy_spec. Qed.
End Buffers.

(** ** int32_t arithmetic *)

Lemma wrap32_fits x : INT32_MIN <= x <= INT32_MAX -> wrap32 x = x.
Proof.
  unfold wrap32, INT32_MIN, INT32_MAX. intros H.
  rewrite Z.mod_small by lia. lia.
Qed.

Lemma wrap32_congruent x : exists k, wrap32 x = x + k * 4294967296.
Proof.
  unfold wrap32. exists (- ((x + 2147483648) / 4294967296)).
  pose proof (Z.div_mod (x + 2147483648) 4294967296 ltac:(lia)). lia.
Qed.

Lemma wrap32_add_wrap x y : wrap32 (wrap32 x + wrap32 y) = wrap32 (x + y).
Proof.
  destruct (wrap32_congruent x) as [k ->], (wrap32_congruent y) as [l ->].
  unfold wrap32.
  replace (x + k * 4294967296 + (y + l * 4294967296) + 2147483648)
    with (x + y + 2147483648 + (k + l) * 4294967296) by ring.
  rewrite Z_mod_plus_full. reflexivity.
Qed.

Lemma mul32_fits a b : INT32_MIN <= a * b <= INT32_MAX -> mul32 a b = a * b.
Proof. apply wrap32_fits. Qed.

Lemma add32_fits a b : INT32_MIN <= a + b <= INT32_MAX -> add32 a b = a + b.
Proof. apply wrap32_fits. Qed.

(** The offset of a cell in the packed buffer, computed in [int32_t]. *)
Lemma cell32 rows cols row col :
  0 <= row < rows -> 0 <= col < cols -> rows * cols <= INT32_MAX ->
  mul32 row cols = row * cols /\ add32 (mul32 row cols) col = row * cols + col.
Proof.
  intros Hr Hc Hfit. unfold INT32_MAX in Hfit.
  assert (0 <= row * cols /\ row * cols + col < rows * cols) as [H0 H1] by nia.
  assert (mul32 row cols = row * cols) as E
    by (apply mul32_fits; unfold INT32_MIN, INT32_MAX; lia).
  split; [exact E|]. rewrite E.
  apply add32_fits. unfold INT32_MIN, INT32_MAX. lia.
Qed.

(** Under its range conditions the handler reads a cell at the exact
    offset. *)
Lemma luma_offset_exact width yRowStride row col :
  0 <= col < width -> width <= INT32_MAX ->
  0 <= row * yRowStride + col <= INT32_MAX ->
  luma_offset width yRowStride row col = row * yRowStride + col.
Proof.
  intros Hc Hw Hoff. unfold luma_offset, INT32_MAX in *.
  destruct (yRowStride =? width) eqn:E.
  - apply Z.eqb_eq in E. subst. reflexivity.
  - rewrite mul32_fits by (unfold INT32_MIN, INT32_MAX; lia). reflexivity.
Qed.

Lemma chroma_offset_exact uvWidth uvRowStride uvPixelStride row col :
  0 <= col < uvWidth -> uvWidth <= INT32_MAX ->
  0 <= row * uvRowStride + col * uvPixelStride <= INT32_MAX ->
  chroma_offset uvWidth uvRowStride uvPixelStride row col
  = row * uvRowStride + col * uvPixelStride.
Proof.
  intros Hc Hw Hoff. unfold chroma_offset, INT32_MAX in *.
  destruct (uvPixelStride =? 1) eqn:Eps.
  - apply Z.eqb_eq in Eps. subst uvPixelStride.
    destruct (uvRowStride =? uvWidth) eqn:Ers.
    + apply Z.eqb_eq in Ers. subst. lia.
    + rewrite mul32_fits by (unfold INT32_MIN, INT32_MAX; lia). lia.
  - unfold add32, mul32. rewrite wrap32_add_wrap.
    apply wrap32_fits. unfold INT32_MIN, INT32_MAX. lia.
Qed.

(** ** The plane copies *)

Lemma cell_bound rows cols row col :
  0 <= row < rows -> 0 <= col < cols ->
  0 <= row * cols + col < rows * cols.
Proof. intros Hr Hc. nia. Qed.

Lemma filled_frame buf buf' base rows cols f :
  filled buf base rows cols f ->
  (forall j, base <= j < base + rows * cols -> byte_at buf' j = byte_at buf j) ->
  filled buf' base rows cols f.
Proof.
  intros Hf Hsame row col Hr Hc.
  pose proof (cell_bound rows cols row col Hr Hc).
  rewrite Hsame by lia. apply Hf; assumption.
Qed.

Lemma filled_snoc buf base rows cols f :
  filled buf base rows cols f ->
  (forall col, 0 <= col < cols ->
     byte_at buf (base + (rows * cols + col)) = Some (f rows col)) ->
  filled buf base (rows + 1) cols f.
Proof.
  intros Hf Hrow row col Hr Hc.
  destruct (Z.eq_dec row rows) as [->|Hne].
  - apply Hrow, Hc.
  - apply Hf; [lia|exact Hc].
Qed.

Lemma filled_max buf base rows cols f :
  filled buf base (Z.max 0 rows) cols f -> filled buf base rows cols f.
Proof. intros Hf row col Hr Hc. apply Hf; [lia|exact Hc]. Qed.

Lemma filled_memcpy_row buf base rows cols f src soff i :
  0 <= base -> 0 <= i < rows ->
  base + rows * cols <= Z.of_nat (length buf) ->
  (forall col, 0 <= col < cols -> peek src (soff + col) = f i col) ->
  filled buf base i cols f ->
  filled (memcpy buf (base + i * cols) src soff cols) base (i + 1) cols f.
Proof.
  intros Hb Hi Hlen Hsrc Hf. apply filled_snoc.
  - eapply filled_frame; [exact Hf|]. intros j Hj.
    apply byte_at_memcpy_out. lia.
  - intros col Hc. pose proof (cell_bound rows cols i col Hi Hc).
    rewrite byte_at_memcpy_in by lia.
    rewrite <- Hsrc by exact Hc. do 2 f_equal. lia.
Qed.

(** The copies never change the length of the buffer. *)
Lemma length_copy_Y width height yData yRowStride buf :
  length (copy_Y width height yData yRowStride buf) = length buf.
Proof.
  unfold copy_Y. destruct (yRowStride =? width); [apply length_memcpy|].
  apply (for_loop_inv (fun _ b => length b = length buf)); [reflexivity|].
  intros i b _ Hb. rewrite length_memcpy. exact Hb.
Qed.

Lemma length_copy_UV width height uData vData uvRowStride uvPixelStride buf :
  length (copy_UV width height uData vData uvRowStride uvPixelStride buf)
  = length buf.
Proof.
  unfold copy_UV. cbv zeta. destruct (uvPixelStride =? 1).
  - destruct (_ =? _); [rewrite !length_memcpy; reflexivity|].
    apply (for_loop_inv (fun _ b => length b = length buf)); [reflexivity|].
    intros i b _ Hb. rewrite !length_memcpy. exact Hb.
  - apply (for_loop_inv (fun _ b => length b = length buf)); [reflexivity|].
    intros i b _ Hb.
    apply (for_loop_inv (fun _ b' => length b' = length buf)); [exact Hb|].
    intros c b' _ Hb'. rewrite !length_poke. exact Hb'.
Qed.

Lemma copy_Y_spec width height yData yRowStride buf :
  0 <= width -> 0 <= height -> width * height <= INT32_MAX ->
  width * height <= Z.of_nat (length buf) ->
  filled (copy_Y width height yData yRowStride buf) 0 height width
    (fun row col => peek yData (luma_offset width yRowStride row col)).
Proof.
  intros Hw Hh Hfit Hlen. unfold copy_Y, luma_offset.
  destruct (yRowStride =? width) eqn:E.
  - rewrite mul32_fits by (unfold INT32_MIN, INT32_MAX in *; nia).
    intros row col Hr Hc. pose proof (cell_bound height width row col Hr Hc).
    rewrite byte_at_memcpy_in by lia. do 2 f_equal. lia.
  - pose (P := fun (i : Z) (b : list Z) =>
      length b = length buf /\
      filled b 0 i width (fun row col => peek yData (mul32 row yRowStride + col))).
    assert (P (Z.max 0 height)
              (for_loop height (fun row b =>
                 memcpy b (mul32 row width) yData (mul32 row yRowStride) width)
                 buf))
      as [Hl Hf].
    { apply for_loop_inv; unfold P.
      - split; [reflexivity|]. intros row col Hr. lia.
      - intros i b Hi [Hl Hf]. split; [rewrite length_memcpy; exact Hl|].
        rewrite (mul32_fits i width)
          by (unfold INT32_MIN, INT32_MAX in *; nia).
        replace (i * width) with (0 + i * width) by lia.
        apply filled_memcpy_row with (rows := height);
          [lia|exact Hi|rewrite Hl; lia| |exact Hf].
        intros col Hc. reflexivity. }
    apply filled_max, Hf.
Qed.

Lemma copy_UV_spec width height uData vData uvRowStride uvPixelStride buf :
  0 <= width -> 0 <= height -> width * height <= INT32_MAX ->
  width * height + 2 * (Z.quot width 2 * Z.quot height 2)
  <= Z.of_nat (length buf) ->
  let out := copy_UV width height uData vData uvRowStride uvPixelStride buf in
  let offset := chroma_offset (Z.quot width 2) uvRowStride uvPixelStride in
  (forall j, j < width * height -> byte_at out j = byte_at buf j) /\
  filled out (width * height) (Z.quot height 2) (Z.quot width 2)
    (fun row col => peek uData (offset row col)) /\
  filled out (width * height + Z.quot width 2 * Z.quot height 2)
    (Z.quot height 2) (Z.quot width 2)
    (fun row col => peek vData (offset row col)).
Proof.
  intros Hw Hh Hfit Hlen. unfold copy_UV, chroma_offset. cbv zeta.
  assert (0 <= Z.quot width 2) as Hw2 by (apply Z.quot_pos; lia).
  assert (0 <= Z.quot height 2) as Hh2 by (apply Z.quot_pos; lia).
  assert (0 <= width * height) as Hpos by nia.
  assert (Z.quot width 2 * Z.quot height 2 <= width * height) as Hsub.
  { pose proof (Z.quot_le_mono 0 width 2) as _.
    assert (Z.quot width 2 <= width)
      by (rewrite Z.quot_div_nonneg by lia; apply Z.div_le_upper_bound; lia).
    assert (Z.quot height 2 <= height)
      by (rewrite Z.quot_div_nonneg by lia; apply Z.div_le_upper_bound; lia).
    nia. }
  rewrite !(mul32_fits width height)
    by (unfold INT32_MIN, INT32_MAX in *; lia).
  rewrite !(mul32_fits (Z.quot width 2) (Z.quot height 2))
    by (unfold INT32_MIN, INT32_MAX in *; nia).
  set (uvWidth := Z.quot width 2) in *. set (uvHeight := Z.quot height 2) in *.
  set (uDst := width * height) in *.
  set (vDst := uDst + uvWidth * uvHeight).
  assert (uvWidth * uvHeight <= INT32_MAX) as Hfit2 by lia.
  pose (P := fun (fU fV : Z -> Z -> Z) (i : Z) (b : list Z) =>
    length b = length buf /\
    (forall j, j < uDst -> byte_at b j = byte_at buf j) /\
    filled b uDst i uvWidth fU /\ filled b vDst i uvWidth fV).
  assert (forall fU fV, P fU fV 0 buf) as HP0.
  { intros fU fV. unfold P. split; [reflexivity|]. split; [reflexivity|].
    split; intros row col Hr; lia. }
  assert (forall fU fV b, P fU fV (Z.max 0 uvHeight) b ->
            (forall j, j < uDst -> byte_at b j = byte_at buf j) /\
            filled b uDst uvHeight uvWidth fU /\
            filled b vDst uvHeight uvWidth fV) as Hdone.
  { intros fU fV b (Hl & Hlow & HU & HV). auto using filled_max. }
  destruct (uvPixelStride =? 1) eqn:Eps.
  - destruct (uvRowStride =? uvWidth) eqn:Ers.
    + (* one copy per plane *)
      split; [|split].
      * intros j Hj. rewrite !byte_at_memcpy_out by (unfold vDst; nia).
        reflexivity.
      * intros row col Hr Hc.
        pose proof (cell_bound uvHeight uvWidth row col Hr Hc).
        rewrite byte_at_memcpy_out by (unfold vDst; lia).
        rewrite byte_at_memcpy_in by lia.
        do 2 f_equal. lia.
      * intros row col Hr Hc.
        pose proof (cell_bound uvHeight uvWidth row col Hr Hc).
        rewrite byte_at_memcpy_in
          by (rewrite ?length_memcpy; unfold vDst in *; lia).
        do 2 f_equal. lia.
    + (* one copy per row and plane *)
      apply Hdone. apply for_loop_inv; [apply HP0|].
      intros i b Hi (Hl & Hlow & HU & HV).
      rewrite !(mul32_fits i uvWidth)
        by (unfold INT32_MIN, INT32_MAX in *; nia).
      assert (0 <= uvWidth * uvHeight) as Hn by nia.
      assert (forall col, 0 <= col < uvWidth ->
                0 <= i * uvWidth + col < uvWidth * uvHeight) as Hcell.
      { intros col Hc. pose proof (cell_bound uvHeight uvWidth i col Hi Hc). lia. }
      unfold P. rewrite !length_memcpy. split; [exact Hl|]. split; [|split].
      * intros j Hj.
        rewrite !byte_at_memcpy_out; [apply Hlow, Hj| |];
          intros [? ?]; specialize (Hcell (j - (uDst + i * uvWidth)));
          unfold vDst in *; nia.
      * apply filled_frame
          with (buf := memcpy b (uDst + i * uvWidth) uData
                         (mul32 i uvRowStride) uvWidth).
        -- apply filled_memcpy_row with (rows := uvHeight);
             [lia|exact Hi|rewrite Hl; unfold vDst in *; lia| |exact HU].
           intros col Hc. reflexivity.
        -- intros j Hj. apply byte_at_memcpy_out.
           assert (0 <= i * uvWidth) by nia. unfold vDst. nia.
      * apply filled_memcpy_row with (rows := uvHeight);
          [unfold vDst; lia|exact Hi
          |rewrite length_memcpy, Hl; unfold vDst in *; lia| |].
        -- intros col Hc. reflexivity.
        -- eapply filled_frame; [exact HV|]. intros j Hj.
           apply byte_at_memcpy_out.
           assert (i * uvWidth + uvWidth <= uvWidth * uvHeight) by nia.
           unfold vDst in *. lia.
  - (* byte by byte *)
    apply Hdone. apply for_loop_inv; [apply HP0|].
    intros i b Hi (Hl & Hlow & HU & HV).
    set (fU := fun row col : Z =>
      peek uData (add32 (mul32 row uvRowStride) (mul32 col uvPixelStride))) in *.
    set (fV := fun row col : Z =>
      peek vData (add32 (mul32 row uvRowStride) (mul32 col uvPixelStride))) in *.
    pose (Q := fun (c : Z) (b' : list Z) =>
      length b' = length buf /\
      (forall j, j < uDst -> byte_at b' j = byte_at buf j) /\
      filled b' uDst i uvWidth fU /\ filled b' vDst i uvWidth fV /\
      (forall col, 0 <= col < c ->
         byte_at b' (uDst + (i * uvWidth + col)) = Some (fU i col)) /\
      (forall col, 0 <= col < c ->
         byte_at b' (vDst + (i * uvWidth + col)) = Some (fV i col))).
    match goal with |- P _ _ _ ?r => assert (Q (Z.max 0 uvWidth) r) as HQ end.
    { apply for_loop_inv.
      - unfold Q. repeat (split; [assumption|]). split; intros; lia.
      - intros c b' Hc (Hl' & Hlow' & HU' & HV' & HrU & HrV).
        destruct (cell32 uvHeight uvWidth i c Hi Hc) as [_ Hidx]; [lia|].
        rewrite !Hidx.
        pose proof (cell_bound uvHeight uvWidth i c Hi Hc) as Hic.
        assert (0 <= i * uvWidth) as Hiw by nia.
        unfold Q. rewrite !length_poke. split; [exact Hl'|].
        split; [|split; [|split; [|split]]].
        + intros j Hj. rewrite !byte_at_poke_ne by (unfold vDst; lia).
          apply Hlow', Hj.
        + eapply filled_frame; [exact HU'|]. intros j Hj.
          assert (i * uvWidth <= i * uvWidth + c) by lia.
          rewrite !byte_at_poke_ne by (unfold vDst; lia). reflexivity.
        + eapply filled_frame; [exact HV'|]. intros j Hj.
          rewrite !byte_at_poke_ne by (unfold vDst in *; lia). reflexivity.
        + intros col Hcol. rewrite byte_at_poke_ne by (unfold vDst; lia).
          destruct (Z.eq_dec col c) as [->|Hne].
          * apply byte_at_poke_eq. rewrite Hl'. unfold vDst in *. lia.
          * rewrite byte_at_poke_ne by lia. apply HrU. lia.
        + intros col Hcol.
          destruct (Z.eq_dec col c) as [->|Hne].
          * apply byte_at_poke_eq. rewrite length_poke, Hl'.
            unfold vDst in *. lia.
          * rewrite !byte_at_poke_ne by (unfold vDst; lia). apply HrV. lia. }
    destruct HQ as (Hl' & Hlow' & HU' & HV' & HrU & HrV).
    unfold P. split; [exact Hl'|]. split; [exact Hlow'|].
    split; apply filled_snoc; try assumption; intros col Hc;
      [apply HrU|apply HrV]; lia.
Qed.

(** The copies write inside their planes only. *)
Lemma copy_Y_outside width height yData yRowStride buf j :
  0 <= width -> 0 <= height -> width * height <= INT32_MAX ->
  ~ (0 <= j < width * height) ->
  byte_at (copy_Y width height yData yRowStride buf) j = byte_at buf j.
Proof.
  intros Hw Hh Hfit Hj. unfold copy_Y. destruct (yRowStride =? width).
  - rewrite mul32_fits by (unfold INT32_MIN, INT32_MAX in *; nia).
    apply byte_at_memcpy_out. lia.
  - pose (P := fun (i : Z) (b : list Z) => byte_at b j = byte_at buf j).
    apply (for_loop_inv P); unfold P; [reflexivity|].
    intros i b Hi Hb.
    rewrite (mul32_fits i width) by (unfold INT32_MIN, INT32_MAX in *; nia).
    rewrite byte_at_memcpy_out; [exact Hb|].
    pose proof (cell_bound height width i 0 Hi). nia.
Qed.

Lemma copy_UV_outside width height uData vData uvRowStride uvPixelStride buf j :
  0 <= width -> 0 <= height -> width * height <= INT32_MAX ->
  ~ (width * height <= j
     < width * height + 2 * (Z.quot width 2 * Z.quot height 2)) ->
  byte_at (copy_UV width height uData vData uvRowStride uvPixelStride buf) j
  = byte_at buf j.
Proof.
  intros Hw Hh Hfit Hj. unfold copy_UV. cbv zeta.
  assert (0 <= Z.quot width 2) as Hw2 by (apply Z.quot_pos; lia).
  assert (0 <= Z.quot height 2) as Hh2 by (apply Z.quot_pos; lia).
  assert (Z.quot width 2 * Z.quot height 2 <= width * height) as Hsub.
  { assert (Z.quot width 2 <= width)
      by (rewrite Z.quot_div_nonneg by lia; apply Z.div_le_upper_bound; lia).
    assert (Z.quot height 2 <= height)
      by (rewrite Z.quot_div_nonneg by lia; apply Z.div_le_upper_bound; lia).
    nia. }
  rewrite !(mul32_fits width height)
    by (unfold INT32_MIN, INT32_MAX in *; nia).
  rewrite !(mul32_fits (Z.quot width 2) (Z.quot height 2))
    by (unfold INT32_MIN, INT32_MAX in *; nia).
  set (uvWidth := Z.quot width 2) in *. set (uvHeight := Z.quot height 2) in *.
  set (uDst := width * height) in *.
  pose (P := fun (i : Z) (b : list Z) => byte_at b j = byte_at buf j).
  destruct (uvPixelStride =? 1).
  - destruct (uvRowStride =? uvWidth).
    + rewrite !byte_at_memcpy_out by lia. reflexivity.
    + apply (for_loop_inv P); unfold P; [reflexivity|].
      intros i b Hi Hb.
      rewrite !(mul32_fits i uvWidth)
        by (unfold INT32_MIN, INT32_MAX in *; nia).
      assert (0 <= i * uvWidth /\ i * uvWidth + uvWidth <= uvWidth * uvHeight)
        by nia.
      rewrite !byte_at_memcpy_out by lia. exact Hb.
  - apply (for_loop_inv P); unfold P; [reflexivity|].
    intros i b Hi Hb.
    apply (for_loop_inv (fun (c : Z) b' => byte_at b' j = byte_at buf j));
      [exact Hb|].
    intros c b' Hc Hb'.
    destruct (cell32 uvHeight uvWidth i c Hi Hc) as [_ Hidx]; [lia|].
    rewrite !Hidx.
    pose proof (cell_bound uvHeight uvWidth i c Hi Hc).
    rewrite !byte_at_poke_ne by lia. exact Hb'.
Qed.

(** ** The packed buffer *)

Lemma quot2_nonneg a : 0 <= a -> 0 <= Z.quot a 2.
Proof. intros Ha. apply Z.quot_pos; lia. Qed.

Lemma quot2_pos_inv a : 0 < Z.quot a 2 -> 0 <= a.
Proof.
  intros H. destruct (Z.lt_ge_cases a 0) as [Hneg|Hpos]; [|exact Hpos].
  assert (0 <= Z.quot (- a) 2) by (apply Z.quot_pos; lia).
  rewrite Z.quot_opp_l in H0 by lia. lia.
Qed.

Lemma quot2_le a : 0 <= a -> Z.quot a 2 <= a.
Proof.
  intros Ha. rewrite Z.quot_div_nonneg by lia.
  apply Z.div_le_upper_bound; lia.
Qed.

(** Line 286 without overflow. *)
Lemma i420Size_exact width height :
  frame_fits width height ->
  i420Size width height = Z.quot (width * height * 3) 2.
Proof.
  intros (Hw & Hh & Hfit). unfold i420Size, INT32_MAX in *.
  rewrite (mul32_fits width height) by (unfold INT32_MIN, INT32_MAX; nia).
  rewrite mul32_fits by (unfold INT32_MIN, INT32_MAX; nia). reflexivity.
Qed.

Lemma planes_fit_size width height :
  0 <= width -> 0 <= height ->
  width * height + 2 * (Z.quot width 2 * Z.quot height 2)
  <= Z.quot (width * height * 3) 2.
Proof.
  intros Hw Hh.
  rewrite !Z.quot_div_nonneg by nia.
  pose proof (Z.mul_div_le width 2 ltac:(lia)).
  pose proof (Z.mul_div_le height 2 ltac:(lia)).
  pose proof (Z.div_pos width 2 Hw ltac:(lia)).
  pose proof (Z.div_pos height 2 Hh ltac:(lia)).
  apply Z.div_le_lower_bound; [lia|]. nia.
Qed.

Lemma even_size width height :
  Z.even width = true -> Z.even height = true ->
  Z.quot (width * height * 3) 2
  = width * height + Z.quot width 2 * Z.quot height 2
    + Z.quot width 2 * Z.quot height 2.
Proof.
  intros Hw Hh.
  apply Z.even_spec in Hw as [a ->]. apply Z.even_spec in Hh as [b ->].
  rewrite !(Z.mul_comm 2), !Z.quot_mul by lia.
  replace (a * 2 * (b * 2) * 3) with (a * b * 6 * 2) by ring.
  rewrite Z.quot_mul by lia. ring.
Qed.

Section Pack.
Variables (width height : Z) (yData uData vData : list Z).
Variables (yRowStride uvRowStride uvPixelStride : Z).
Hypothesis Hfits : frame_fits width height.

Lemma pack_parts :
  let buffer := i420_pack width height yData uData vData yRowStride
                  uvRowStride uvPixelStride in
  Z.of_nat (length buffer) = Z.quot (width * height * 3) 2 /\
  filled buffer 0 height width
    (fun row col => peek yData (luma_offset width yRowStride row col)) /\
  filled buffer (width * height) (Z.quot height 2) (Z.quot width 2)
    (fun row col => peek uData (chroma_offset (Z.quot width 2) uvRowStride
                                  uvPixelStride row col)) /\
  filled buffer (width * height + Z.quot width 2 * Z.quot height 2)
    (Z.quot height 2) (Z.quot width 2)
    (fun row col => peek vData (chroma_offset (Z.quot width 2) uvRowStride
                                  uvPixelStride row col)).
Proof.
  pose proof (i420Size_exact width height Hfits) as Hsize.
  destruct Hfits as (Hwidth & Hheight & Hfit).
  pose proof (planes_fit_size width height Hwidth Hheight) as Hplanes.
  pose proof (quot2_nonneg width Hwidth). pose proof (quot2_nonneg height Hheight).
  assert (0 <= width * height <= INT32_MAX) as Hwh by nia.
  assert (0 <= Z.quot (width * height * 3) 2) as Hnn by nia.
  cbv zeta. unfold i420_pack, i420_fill. cbv zeta. rewrite Hsize.
  pose proof (length_zeros _ Hnn) as Hlen0.
  set (zeros := replicate (Z.to_nat (Z.quot (width * height * 3) 2)) 0) in *.
  pose proof (copy_Y_spec width height yData yRowStride zeros
                Hwidth Hheight ltac:(lia) ltac:(nia)) as HfY.
  destruct (copy_UV_spec width height uData vData uvRowStride uvPixelStride
              (copy_Y width height yData yRowStride zeros)
              Hwidth Hheight ltac:(lia))
    as (Hlow & HfU & HfV); [rewrite length_copy_Y; lia|].
  split; [rewrite length_copy_UV, length_copy_Y; exact Hlen0|].
  split; [|split; assumption].
  intros row col Hr Hc. pose proof (cell_bound height width row col Hr Hc).
  rewrite Hlow by lia. apply HfY; assumption.
Qed.
End Pack.

Lemma frame_fits_cell width height row col :
  frame_fits width height -> 0 <= row < height -> 0 <= col < width ->
  width <= INT32_MAX.
Proof. intros (Hw & Hh & Hfit) Hr Hc. unfold INT32_MAX in *. nia. Qed.

Lemma pack_luma width height yData uData vData yRowStride uvRowStride
    uvPixelStride row col b :
  frame_fits width height ->
  Z.of_nat (length yData) <= INT32_MAX ->
  0 <= row < height -> 0 <= col < width ->
  byte_at yData (row * yRowStride + col) = Some b ->
  byte_at (i420_pack width height yData uData vData yRowStride uvRowStride
             uvPixelStride) (row * width + col) = Some b.
Proof.
  intros Hfits Hlen Hr Hc Hb.
  destruct (pack_parts width height yData uData vData yRowStride uvRowStride
              uvPixelStride Hfits) as (_ & HY & _).
  specialize (HY row col Hr Hc). rewrite Z.add_0_l in HY.
  rewrite HY. f_equal.
  rewrite luma_offset_exact; [apply byte_at_Some, Hb|exact Hc| |].
  - eapply frame_fits_cell; eassumption.
  - unfold byte_at in Hb.
    destruct (row * yRowStride + col <? 0) eqn:E; [discriminate Hb|].
    apply Z.ltb_ge in E. apply lookup_lt_Some in Hb. lia.
Qed.

Lemma byte_at_inside (l : list Z) i b :
  byte_at l i = Some b -> 0 <= i < Z.of_nat (length l).
Proof.
  unfold byte_at. destruct (i <? 0) eqn:E; [discriminate|].
  apply Z.ltb_ge in E. intros H. apply lookup_lt_Some in H. lia.
Qed.

Lemma pack_chroma width height yData uData vData yRowStride uvRowStride
    uvPixelStride row col :
  frame_fits width height ->
  0 <= row < Z.quot height 2 -> 0 <= col < Z.quot width 2 ->
  let buffer := i420_pack width height yData uData vData yRowStride uvRowStride
                  uvPixelStride in
  let offset := row * uvRowStride + col * uvPixelStride in
  (forall b, Z.of_nat (length uData) <= INT32_MAX ->
     byte_at uData offset = Some b ->
     byte_at buffer (width * height + (row * Z.quot width 2 + col)) = Some b) /\
  (forall b, Z.of_nat (length vData) <= INT32_MAX ->
     byte_at vData offset = Some b ->
     byte_at buffer (width * height + Z.quot width 2 * Z.quot height 2
                     + (row * Z.quot width 2 + col)) = Some b).
Proof.
  intros Hfits Hr Hc. cbv zeta.
  destruct (pack_parts width height yData uData vData yRowStride uvRowStride
              uvPixelStride Hfits) as (_ & _ & HU & HV).
  assert (Z.quot width 2 <= INT32_MAX) as Hw2.
  { destruct Hfits as (Hw & Hh & Hfit).
    pose proof (quot2_le width Hw). pose proof (quot2_le height Hh).
    unfold INT32_MAX in *. nia. }
  split; intros b Hlen Hb; pose proof (byte_at_inside _ _ _ Hb).
  - rewrite (HU row col Hr Hc). f_equal.
    rewrite chroma_offset_exact by (try assumption; lia).
    apply byte_at_Some, Hb.
  - rewrite (HV row col Hr Hc). f_equal.
    rewrite chroma_offset_exact by (try assumption; lia).
    apply byte_at_Some, Hb.
Qed.

(** ** The per-image handler *)

Lemma onImageAvailable_delivers host w callback image yData uData vData :
  frameCallback_ (self w) = Some callback ->
  planeData (plane0 image) = Some yData ->
  planeData (plane1 image) = Some uData ->
  planeData (plane2 image) = Some vData ->
  0 <= i420Size (imageWidth image) (imageHeight image) ->
  (0 <? i420Size (imageWidth image) (imageHeight image)) && new_fails host
  = false ->
  onImageAvailable host (AMEDIA_OK, Some image) w
  = emit_all (delivery host callback image
                (i420_pack (imageWidth image) (imageHeight image)
                   yData uData vData (planeRowStride (plane0 image))
                   (planeRowStride (plane1 image))
                   (planePixelStride (plane1 image)))) w.
Proof.
  intros Hcb HY HU HV Hsize Hnew. unfold onImageAvailable. cbn [fst snd].
  rewrite Hcb, HY, HU, HV. cbn [negb]. change (AMEDIA_OK =? AMEDIA_OK) with true.
  cbn [negb]. cbv zeta. unfold vector_new.
  replace (i420Size (imageWidth image) (imageHeight image) <? 0) with false
    by (symmetry; apply Z.ltb_ge; exact Hsize).
  rewrite Hnew. unfold emit, emit_all, delivery, i420_pack. cbn [self trace].
  destruct (callback_throws host); rewrite <- !app_assoc; reflexivity.
Qed.

Lemma frame_fits_size width height :
  frame_fits width height -> 0 <= i420Size width height.
Proof.
  intros Hfits. rewrite i420Size_exact by exact Hfits.
  destruct Hfits as (Hw & Hh & _). apply Z.quot_pos; nia.
Qed.

Lemma onImageAvailable_delivers_fit host w callback image yData uData vData :
  frameCallback_ (self w) = Some callback ->
  planeData (plane0 image) = Some yData ->
  planeData (plane1 image) = Some uData ->
  planeData (plane2 image) = Some vData ->
  frame_fits (imageWidth image) (imageHeight image) ->
  new_fails host = false ->
  onImageAvailable host (AMEDIA_OK, Some image) w
  = emit_all (delivery host callback image
                (i420_pack (imageWidth image) (imageHeight image)
                   yData uData vData (planeRowStride (plane0 image))
                   (planeRowStride (plane1 image))
                   (planePixelStride (plane1 image)))) w.
Proof.
  intros Hcb HY HU HV Hfits Hnew.
  apply onImageAvailable_delivers; try assumption.
  - apply frame_fits_size, Hfits.
  - rewrite Hnew. apply andb_false_r.
Qed.

(** ** Frame conversion: the claims *)

(** C3. For an image with its three plane pointers non-null that fits
    ([width*height*3] inside [int32_t]) and comes from the
    [AIMAGE_FORMAT_YUV_420_888] reader, so that its U and V planes have the
    same strides, and when the buffer can be allocated: the frame reaches
    the callback, the chroma dimensions are [width/2] and [height/2] by
    truncation, and for every chroma row and column the byte at offset
    [row*rowStride + col*pixelStride] of the U plane and of the V plane,
    each with its own strides, is stored at offset [row*chromaWidth + col]
    of the packed U plane and of the packed V plane.  With a pixel stride
    of 1 this is the planar copy, in one piece when the row stride is the
    chroma width and row by row otherwise. *)
Theorem chroma_conversion host w callback image yData uData vData :
  frameCallback_ (self w) = Some callback ->
  planeData (plane0 image) = Some yData ->
  planeData (plane1 image) = Some uData ->
  planeData (plane2 image) = Some vData ->
  frame_fits (imageWidth image) (imageHeight image) ->
  same_chroma_strides image ->
  Z.of_nat (length uData) <= INT32_MAX ->
  Z.of_nat (length vData) <= INT32_MAX ->
  new_fails host = false ->
  let width := imageWidth image in
  let height := imageHeight image in
  let uvWidth := Z.quot width 2 in
  let uvHeight := Z.quot height 2 in
  exists buffer,
    trace (onImageAvailable host (AMEDIA_OK, Some image) w)
    = trace w ++ delivery host callback image buffer /\
    forall row col, 0 <= row < uvHeight -> 0 <= col < uvWidth ->
      (forall b,
         byte_at uData (row * planeRowStride (plane1 image)
                        + col * planePixelStride (plane1 image)) = Some b ->
         byte_at buffer (width * height + (row * uvWidth + col)) = Some b) /\
      (forall b,
         byte_at vData (row * planeRowStride (plane2 image)
                        + col * planePixelStride (plane2 image)) = Some b ->
         byte_at buffer (width * height + uvWidth * uvHeight
                         + (row * uvWidth + col)) = Some b).
Proof.
  intros Hcb HY HU HV Hfits [Hrs Hps] HlenU HlenV Hnew. cbv zeta.
  rewrite (onImageAvailable_delivers_fit host w callback image _ _ _
             Hcb HY HU HV Hfits Hnew).
  eexists. split; [reflexivity|].
  intros row col Hr Hc. rewrite Hrs, Hps.
  destruct (pack_chroma (imageWidth image) (imageHeight image) yData uData vData
              (planeRowStride (plane0 image)) (planeRowStride (plane1 image))
              (planePixelStride (plane1 image)) row col Hfits Hr Hc)
    as [HcU HcV].
  split; intros b Hb; [apply HcU|apply HcV]; assumption.
Qed.

(** The interleaved image: chroma cell (1,1) is U byte 33 at offset 6 of
    plane 1 and V byte 43 at offset 6 of plane 2; they land at offsets
    16 + 3 and 20 + 3 of the buffer. *)
Lemma chroma_conversion_witness :
  frameCallback_ (self capturing0) = Some 7%nat /\
  frame_fits (imageWidth image_interleaved) (imageHeight image_interleaved) /\
  same_chroma_strides image_interleaved /\
  exists buffer,
    trace (onImageAvailable host_fine (AMEDIA_OK, Some image_interleaved)
             capturing0)
    = trace capturing0 ++ delivery host_fine 7%nat image_interleaved buffer /\
    byte_at buffer 19 = Some 33 /\ byte_at buffer 23 = Some 43.
Proof.
  assert (frame_fits (imageWidth image_interleaved)
            (imageHeight image_interleaved)) as Hfits
    by (unfold frame_fits, INT32_MAX; cbn; lia).
  assert (same_chroma_strides image_interleaved) as Hsame
    by (split; reflexivity).
  split; [reflexivity|]. split; [exact Hfits|]. split; [exact Hsame|].
  destruct (chroma_conversion host_fine capturing0 7%nat image_interleaved _ _ _
              eq_refl eq_refl eq_refl eq_refl Hfits Hsame
              ltac:(unfold INT32_MAX; cbn; lia)
              ltac:(unfold INT32_MAX; cbn; lia) eq_refl)
    as (buffer & Htrace & Hcells).
  exists buffer. split; [exact Htrace|].
  destruct (Hcells 1 1 ltac:(in_range) ltac:(in_range)) as [HU HV].
  split; [exact (HU 33 eq_refl)|exact (HV 43 eq_refl)].
Defined.

(** C4. For an image that fits and a buffer that can be allocated, the
    frame reaches the callback and the luma plane fills the first
    [width*height] bytes of the buffer, without the stride padding: the
    byte at source offset [row*rowStride + col] is stored at offset
    [row*width + col], be it by the single copy (row stride equal to the
    width) or row by row.  For a 4x4 frame with luma row stride 8 whose
    rows hold the row index the luma part is the 16 bytes
    0 0 0 0 1 1 1 1 2 2 2 2 3 3 3 3. *)
Theorem luma_copy :
  (forall host w callback image yData uData vData,
     frameCallback_ (self w) = Some callback ->
     planeData (plane0 image) = Some yData ->
     planeData (plane1 image) = Some uData ->
     planeData (plane2 image) = Some vData ->
     frame_fits (imageWidth image) (imageHeight image) ->
     Z.of_nat (length yData) <= INT32_MAX ->
     new_fails host = false ->
     let width := imageWidth image in
     let height := imageHeight image in
     let rowStride := planeRowStride (plane0 image) in
     exists buffer,
       trace (onImageAvailable host (AMEDIA_OK, Some image) w)
       = trace w ++ delivery host callback image buffer /\
       forall row col b, 0 <= row < height -> 0 <= col < width ->
         byte_at yData (row * rowStride + col) = Some b ->
         byte_at buffer (row * width + col) = Some b) /\
  (exists buffer,
     trace (onImageAvailable host_fine (AMEDIA_OK, Some image_padded_luma)
              capturing0)
     = trace capturing0 ++ delivery host_fine 7%nat image_padded_luma buffer /\
     take 16 buffer = [0; 0; 0; 0; 1; 1; 1; 1; 2; 2; 2; 2; 3; 3; 3; 3] /\
     forall row col, 0 <= row < 4 -> 0 <= col < 4 ->
       byte_at buffer (row * 4 + col) = Some row).
Proof.
  split.
  - intros host w callback image yData uData vData Hcb HY HU HV Hfits Hlen Hnew.
    cbv zeta.
    rewrite (onImageAvailable_delivers_fit host w callback image _ _ _
               Hcb HY HU HV Hfits Hnew).
    eexists. split; [reflexivity|].
    intros row col b Hr Hc Hb. apply pack_luma; assumption.
  - rewrite (onImageAvailable_delivers_fit host_fine capturing0 7%nat
               image_padded_luma _ _ _ eq_refl eq_refl eq_refl eq_refl
               ltac:(unfold frame_fits, INT32_MAX; cbn; lia) eq_refl).
    eexists. split; [reflexivity|]. split; [vm_compute; reflexivity|].
    intros row col Hr Hc.
    assert (row = 0 \/ row = 1 \/ row = 2 \/ row = 3) as Hrow by lia.
    assert (col = 0 \/ col = 1 \/ col = 2 \/ col = 3) as Hcol by lia.
    destruct Hrow as [->|[->|[->| ->]]], Hcol as [->|[->|[->| ->]]];
      vm_compute; reflexivity.
Qed.

Lemma luma_copy_witness :
  frameCallback_ (self capturing0) = Some 7%nat /\
  frame_fits (imageWidth image_interleaved) (imageHeight image_interleaved) /\
  exists buffer,
    trace (onImageAvailable host_fine (AMEDIA_OK, Some image_interleaved)
             capturing0)
    = trace capturing0 ++ delivery host_fine 7%nat image_interleaved buffer /\
    byte_at buffer (2 * 4 + 3) = Some 61.
Proof.
  assert (frame_fits (imageWidth image_interleaved)
            (imageHeight image_interleaved)) as Hfits
    by (unfold frame_fits, INT32_MAX; cbn; lia).
  split; [reflexivity|]. split; [exact Hfits|].
  destruct (proj1 luma_copy host_fine capturing0 7%nat image_interleaved _ _ _
              eq_refl eq_refl eq_refl eq_refl Hfits
              ltac:(unfold INT32_MAX; cbn; lia) eq_refl)
    as (buffer & Htrace & Hcells).
  exists buffer. split; [exact Htrace|].
  exact (Hcells 2 3 61 ltac:(in_range) ltac:(in_range) eq_refl).
Defined.

(** C5. For non-negative even [width] and [height] whose product
    [width*height*3] stays inside [int32_t], planes whose lengths fit the
    [int] the NDK reports them in, and a buffer that can be allocated: the
    handler allocates [width*height*3/2] bytes and calls the frame callback
    with the buffer, that size, the width, the height and the timestamp of
    the image.  The buffer has exactly that many bytes, which is the luma
    plane of [width*height] bytes followed by two chroma planes of
    [(width/2)*(height/2)] bytes each; luma cell (row, col) is at offset
    [row*width + col], and chroma cell (row, col) of U and of V is at offset
    [row*(width/2) + col] of its packed plane. *)
Theorem normalized_buffer_layout host w callback image yData uData vData :
  frameCallback_ (self w) = Some callback ->
  planeData (plane0 image) = Some yData ->
  planeData (plane1 image) = Some uData ->
  planeData (plane2 image) = Some vData ->
  let width := imageWidth image in
  let height := imageHeight image in
  0 <= width -> 0 <= height -> width * height * 3 <= INT32_MAX ->
  Z.even width = true -> Z.even height = true ->
  Z.of_nat (length yData) <= INT32_MAX ->
  Z.of_nat (length uData) <= INT32_MAX ->
  Z.of_nat (length vData) <= INT32_MAX ->
  new_fails host = false ->
  let size := Z.quot (width * height * 3) 2 in
  let uvWidth := Z.quot width 2 in
  let uvHeight := Z.quot height 2 in
  let uvOffset row col :=
    row * planeRowStride (plane1 image) + col * planePixelStride (plane1 image) in
  exists buffer,
    trace (onImageAvailable host (AMEDIA_OK, Some image) w)
    = trace w ++ [vector_alloc size;
                  frameCallback_invoke callback buffer size width height
                    (imageTimestamp image);
                  if callback_throws host
                  then exception_thrown callback_exception
                  else AImage_delete image] /\
    Z.of_nat (length buffer) = size /\
    size = width * height + uvWidth * uvHeight + uvWidth * uvHeight /\
    (forall row col b, 0 <= row < height -> 0 <= col < width ->
       byte_at yData (row * planeRowStride (plane0 image) + col) = Some b ->
       byte_at buffer (row * width + col) = Some b) /\
    (forall row col b, 0 <= row < uvHeight -> 0 <= col < uvWidth ->
       byte_at uData (uvOffset row col) = Some b ->
       byte_at buffer (width * height + (row * uvWidth + col)) = Some b) /\
    (forall row col b, 0 <= row < uvHeight -> 0 <= col < uvWidth ->
       byte_at vData (uvOffset row col) = Some b ->
       byte_at buffer (width * height + uvWidth * uvHeight
                       + (row * uvWidth + col)) = Some b).
Proof.
  intros Hcb HY HU HV width height Hw Hh Hfit Hwe Hhe HlY HlU HlV Hnew.
  cbv zeta.
  assert (frame_fits width height) as Hfits by (repeat split; assumption).
  rewrite (onImageAvailable_delivers_fit host w callback image _ _ _
             Hcb HY HU HV Hfits Hnew).
  unfold delivery. fold width height.
  rewrite (i420Size_exact width height Hfits).
  eexists. split; [reflexivity|].
  destruct (pack_parts width height yData uData vData
              (planeRowStride (plane0 image)) (planeRowStride (plane1 image))
              (planePixelStride (plane1 image)) Hfits) as (Hlen & _).
  split; [exact Hlen|]. split; [apply even_size; assumption|].
  split; [|split].
  - intros row col b Hr Hc Hb. apply pack_luma; assumption.
  - intros row col b Hr Hc Hb.
    apply (pack_chroma width height yData uData vData _ _ _ row col Hfits Hr Hc);
      assumption.
  - intros row col b Hr Hc Hb.
    apply (pack_chroma width height yData uData vData _ _ _ row col Hfits Hr Hc);
      assumption.
Qed.

Lemma normalized_buffer_layout_witness :
  frameCallback_ (self capturing0) = Some 7%nat /\
  imageWidth image_padded_luma * imageHeight image_padded_luma * 3 <= INT32_MAX /\
  Z.even (imageHeight image_padded_luma) = true /\
  exists buffer,
    trace (onImageAvailable host_fine (AMEDIA_OK, Some image_padded_luma)
             capturing0)
    = trace capturing0 ++ [vector_alloc 24;
                           frameCallback_invoke 7%nat buffer 24 4 4 1000;
                           AImage_delete image_padded_luma] /\
    Z.of_nat (length buffer) = 24.
Proof.
  assert (imageWidth image_padded_luma * imageHeight image_padded_luma * 3
          <= INT32_MAX) as Hfit by (unfold INT32_MAX; cbn; lia).
  split; [reflexivity|]. split; [exact Hfit|]. split; [reflexivity|].
  destruct (normalized_buffer_layout host_fine capturing0 7%nat
              image_padded_luma _ _ _ eq_refl eq_refl eq_refl eq_refl
              ltac:(apply Z.leb_le; reflexivity)
              ltac:(apply Z.leb_le; reflexivity) Hfit eq_refl eq_refl
              ltac:(unfold INT32_MAX; cbn; lia)
              ltac:(unfold INT32_MAX; cbn; lia)
              ltac:(unfold INT32_MAX; cbn; lia) eq_refl)
    as (buffer & Htrace & Hlen & _).
  exists buffer. split; [exact Htrace|exact Hlen].
Defined.




(** ** Examples *)

(** A start on a fresh object with a provider that succeeds throughout:
    twelve construction calls, no release. *)
Example start_succeeds :
  startCapture ndk_ok "0" 640 480 (Some 7%nat) constructed = (true, capturing0) /\
  trace capturing0
  = [AImageReader_new 640 480 35 4; AImageReader_setImageListener 101;
     AImageReader_getWindow 101; ACameraManager_openCamera "0";
     ACameraOutputTarget_create 102; ACameraDevice_createCaptureRequest 103 3;
     ACaptureRequest_addTarget 105 104; ACaptureSessionOutputContainer_create;
     ACaptureSessionOutput_create 102;
     ACaptureSessionOutputContainer_add 106 107;
     ACameraDevice_createCaptureSession 103 106;
     ACameraCaptureSession_setRepeatingRequest 108 105].
Proof. split; vm_compute; reflexivity. Qed.

(** Stopping it releases the seven owned handles, the session first and the
    reader last. *)
Example stop_releases :
  stopCapture capturing0
  = {| self := fresh;
       trace := trace capturing0 ++
         [ACameraCaptureSession_stopRepeating 108; ACameraCaptureSession_close 108;
          ACameraDevice_close 103; ACaptureRequest_free 105;
          ACameraOutputTarget_free 104; ACaptureSessionOutput_free 107;
          ACaptureSessionOutputContainer_free 106; AImageReader_delete 101] |}.
Proof. vm_compute. reflexivity. Qed.

(** The start fails at each of the twelve calls with the matching
    provider, on a fresh object and when switching cameras. *)
Example start_fails_at_each_step s :
  fst (startCapture_at (ndk_failing_at s) "1" 640 480 None constructed)
  = StepFailed s /\
  self (snd (startCapture_at (ndk_failing_at s) "1" 640 480 None constructed))
  = fresh /\
  fst (startCapture_at (ndk_failing_at s) "1" 640 480 None capturing0)
  = StepFailed s.
Proof. destruct s; repeat split; vm_compute; reflexivity. Qed.

(** The contract of the provider is needed for the handles to be all
    populated while capturing: a successful call that leaves a null output
    target is not detected. *)
Example null_target_undetected :
  let w := snd (startCapture ndk_null_target "0" 640 480 (Some 7%nat)
                  constructed) in
  well_behaved ndk_null_target = false /\
  capturing_ (self w) = true /\ outputTarget_ (self w) = nullptr.
Proof. vm_compute. repeat split. Qed.

(** The 4x4 frame with planar 2x2 chroma, U filled with 10 and V with 20:
    bytes 16..19 of the buffer are 10 and bytes 20..23 are 20. *)
Example planar_chroma_example :
  i420_pack 4 4
    [0; 0; 0; 0; 255; 255; 255; 255; 1; 1; 1; 1; 255; 255; 255; 255;
     2; 2; 2; 2; 255; 255; 255; 255; 3; 3; 3; 3; 255; 255; 255; 255]
    [10; 10; 10; 10] [20; 20; 20; 20] 8 2 1
  = [0; 0; 0; 0; 1; 1; 1; 1; 2; 2; 2; 2; 3; 3; 3; 3;
     10; 10; 10; 10; 20; 20; 20; 20].
Proof. vm_compute. reflexivity. Qed.

(** Interleaved chroma U0 V0 U1 V1 ... is separated into the two packed
    planes. *)
Example interleaved_chroma_example :
  drop 16 (i420_pack 4 4 (replicate 16 0)
             [30; 40; 31; 41; 32; 42; 33] [40; 31; 41; 32; 42; 33; 43] 4 4 2)
  = [30; 31; 32; 33; 40; 41; 42; 43].
Proof. vm_compute. reflexivity. Qed.

(** Odd dimensions: the chroma planes have [width/2] x [height/2] cells
    and the buffer has [width*height*3/2] bytes, rounded toward zero. *)
Example odd_dimensions_example :
  i420Size 5 3 = 22 /\
  i420_pack 5 3 [1; 2; 3; 4; 5; 6; 7; 8; 9; 10; 11; 12; 13; 14; 15]
    [60; 61] [70; 71] 5 2 1
  = [1; 2; 3; 4; 5; 6; 7; 8; 9; 10; 11; 12; 13; 14; 15; 60; 61; 70; 71; 0; 0; 0].
Proof. vm_compute. split; reflexivity. Qed.

(** A 32768 x 32768 frame: [width*height*3] wraps to -1073741824, the
    size is negative and the constructor of the buffer throws; no callback,
    and the image is not released. *)
Example huge_frame_throws :
  trace (onImageAvailable host_fine (AMEDIA_OK, Some image_huge) capturing0)
  = trace capturing0 ++ [vector_alloc (-536870912);
                         exception_thrown length_error].
Proof. vm_compute. reflexivity. Qed.

(** A negative width: the same exception. *)
Example negative_width_throws :
  trace (onImageAvailable host_fine (AMEDIA_OK, Some image_negative) capturing0)
  = trace capturing0 ++ [vector_alloc (-24); exception_thrown length_error].
Proof. vm_compute. reflexivity. Qed.

(** An allocation that fails. *)
Example failed_allocation_throws :
  trace (onImageAvailable host_oom (AMEDIA_OK, Some image_interleaved)
           capturing0)
  = trace capturing0 ++ [vector_alloc 24; exception_thrown bad_alloc].
Proof. vm_compute. reflexivity. Qed.

(** * Further properties of the session life cycle *)

Lemma build_pipeline_started ndk cameraId width height callback w :
  manager_isValid ndk = true ->
  first_failure ndk = None ->
  build_pipeline ndk cameraId width height callback w
  = (Started, {| self := started_object ndk cameraId callback;
                 trace := trace w ++ construction_calls ndk cameraId width height |}).
Proof.
  intros Hv Hnone.
  destruct ndk as [v [s1 p1] s2 [s3 p3] [s4 p4] [s5 p5] [s6 p6] s7 [s8 p8]
                     [s9 p9] s10 [s11 p11] s12].
  destruct w as [[c i d ss oc so ot cr ir iw cb] t].
  unfold build_pipeline, first_failure, construction, started_object,
    construction_calls in *.
  cbn [find step_fails] in Hnone. ndk_norm. world_norm. subst v. cbn [negb].
  repeat match goal with
  | |- (if ?c then _ else _) = _ => destruct c; [discriminate Hnone|]
  end.
  rewrite <- !app_assoc. reflexivity.
Qed.

Lemma build_pipeline_failed_calls ndk cameraId width height callback w s w' :
  build_pipeline ndk cameraId width height callback w = (StepFailed s, w') ->
  exists wf,
    w' = cleanup wf /\
    trace wf = trace w ++ take (S (step_index s))
                            (construction_calls ndk cameraId width height).
Proof.
  destruct ndk as [v [s1 p1] s2 [s3 p3] [s4 p4] [s5 p5] [s6 p6] s7 [s8 p8]
                     [s9 p9] s10 [s11 p11] s12].
  destruct w as [[c i d ss oc so ot cr ir iw cb] t].
  unfold build_pipeline, construction_calls. ndk_norm. world_norm.
  intros H.
  repeat match type of H with
  | (if ?c then _ else _) = _ =>
      destruct c;
      [ first [ discriminate H
              | injection H as <- <-;
                eexists; split; [reflexivity|]; world_norm;
                cbn [take step_index]; rewrite <- ?app_assoc; reflexivity ]
      |]
  end.
  all: discriminate H.
Qed.

Lemma releases_are_releases b : forallb is_release (releases b) = true.
Proof.
  unfold releases, held.
  repeat match goal with
  | |- context [is_null ?p] => destruct (is_null p)
  end; reflexivity.
Qed.


Lemma startCapture_at_entry ndk cameraId width height callback w :
  capturing_ (self w) && String.eqb (currentCameraId_ (self w)) cameraId = false ->
  startCapture_at ndk cameraId width height callback w
  = build_pipeline ndk cameraId width height callback
      (if capturing_ (self w) then cleanup w else w).
Proof. intros H. unfold startCapture_at. rewrite H. reflexivity. Qed.

(** X1. A start whose provider is valid and passes all twelve checks
    returns [true]; the object then holds the flag, the requested camera
    identifier, the callback and the eight handles the provider left, and
    the trace grows by the twelve construction calls in the order of the
    source, preceded by the release calls of the old pipeline when the
    start switches cameras. *)
Theorem startCapture_success ndk cameraId width height callback w :
  manager_isValid ndk = true ->
  first_failure ndk = None ->
  (capturing_ (self w) = false ->
   startCapture ndk cameraId width height callback w
   = (true, {| self := started_object ndk cameraId callback;
               trace := trace w
                        ++ construction_calls ndk cameraId width height |})) /\
  (capturing_ (self w) = true -> currentCameraId_ (self w) <> cameraId ->
   startCapture ndk cameraId width height callback w
   = (true, {| self := started_object ndk cameraId callback;
               trace := trace w ++ releases (self w)
                        ++ construction_calls ndk cameraId width height |})).
Proof.
  intros Hv Hnone. split.
  - intros Hc. unfold startCapture.
    rewrite startCapture_at_not_capturing by exact Hc.
    rewrite build_pipeline_started by assumption. reflexivity.
  - intros Hc Hne. unfold startCapture.
    rewrite startCapture_at_switch by assumption.
    rewrite build_pipeline_started by assumption.
    rewrite cleanup_trace, <- app_assoc. reflexivity.
Qed.

Lemma startCapture_success_witness :
  manager_isValid ndk_ok = true /\ first_failure ndk_ok = None /\
  capturing_ (self capturing0) = true /\
  currentCameraId_ (self capturing0) <> "1"%string /\
  startCapture ndk_ok "1" 1280 720 (Some 8%nat) capturing0
  = (true, {| self := started_object ndk_ok "1" (Some 8%nat);
              trace := trace capturing0 ++ releases (self capturing0)
                       ++ construction_calls ndk_ok "1" 1280 720 |}).
Proof.
  split; [reflexivity|]. split; [reflexivity|]. split; [reflexivity|].
  assert (currentCameraId_ (self capturing0) <> "1"%string) as Hne
    by (vm_compute; discriminate).
  split; [exact Hne|].
  exact (proj2 (startCapture_success ndk_ok "1"%string 1280 720 (Some 8%nat)
                  capturing0 eq_refl eq_refl) eq_refl Hne).
Defined.

(** X2. The value [startCapture] returns is the value [isCapturing] has
    afterwards.  It is [true] exactly when the start is suppressed (the
    object is capturing the requested camera) or the manager is valid and no
    check of the twelve construction calls fails; and then the object is
    capturing the requested camera. *)
Theorem startCapture_returns_isCapturing ndk cameraId width height callback w :
  let r := startCapture ndk cameraId width height callback w in
  isCapturing (snd r) = fst r /\
  (fst r = true <->
   (capturing_ (self w) = true /\ currentCameraId_ (self w) = cameraId) \/
   (manager_isValid ndk = true /\ first_failure ndk = None)) /\
  (fst r = true -> currentCameraId_ (self (snd r)) = cameraId).
Proof.
  cbv zeta. unfold startCapture, isCapturing. cbn [fst snd].
  destruct (capturing_ (self w) && String.eqb (currentCameraId_ (self w)) cameraId)
    eqn:Hentry.
  - (* suppressed restart *)
    unfold startCapture_at. rewrite Hentry. cbn [fst snd returned].
    apply andb_prop in Hentry as [Hc Hid]. apply String.eqb_eq in Hid.
    repeat split; auto.
  - rewrite startCapture_at_entry by exact Hentry.
    set (w1 := if capturing_ (self w) then cleanup w else w).
    assert (capturing_ (self w1) = false) as Hw1.
    { unfold w1. destruct (capturing_ (self w)) eqn:Hc;
        [rewrite cleanup_self; reflexivity|exact Hc]. }
    assert (~ (capturing_ (self w) = true /\ currentCameraId_ (self w) = cameraId))
      as Hnot.
    { intros [Hc Hid]. rewrite Hc, Hid, String.eqb_refl in Hentry.
      discriminate Hentry. }
    destruct (manager_isValid ndk) eqn:Hv.
    + pose proof (build_pipeline_outcome ndk cameraId width height callback w1 Hv)
        as Hout.
      destruct (first_failure ndk) as [s|] eqn:Hff.
      * destruct (build_pipeline ndk cameraId width height callback w1)
          as [o w'] eqn:Hb.
        cbn [fst] in Hout. subst o. apply build_pipeline_spec in Hb.
        destruct Hb as (wf & calls & -> & _). cbn [fst snd returned].
        rewrite cleanup_self. cbn. split; [reflexivity|].
        split; [|discriminate]. split; [discriminate|].
        intros [H|[_ H]]; [contradiction|discriminate H].
      * rewrite build_pipeline_started by assumption. cbn.
        repeat split; auto.
    + unfold build_pipeline. rewrite Hv. cbn. rewrite Hw1.
      split; [reflexivity|]. split; [|discriminate]. split; [discriminate|].
      intros [H|[H _]]; [contradiction|discriminate H].
Qed.

Lemma startCapture_returns_isCapturing_witness :
  fst (startCapture (ndk_failing_at AddTargetToRequest) "1" 640 480 None
         capturing0) = false /\
  isCapturing (snd (startCapture (ndk_failing_at AddTargetToRequest) "1" 640 480
                      None capturing0)) = false.
Proof.
  assert (fst (startCapture (ndk_failing_at AddTargetToRequest) "1" 640 480 None
                 capturing0) = false) as H by (vm_compute; reflexivity).
  split; [exact H|].
  rewrite (proj1 (startCapture_returns_isCapturing
                    (ndk_failing_at AddTargetToRequest) "1"%string 640 480 None
                    capturing0)).
  exact H.
Defined.



(** X4. Construction stops at the first failing check.  When [startCapture]
    leaves at the call [s], the calls it made are: the release calls of the
    old pipeline if it switched cameras (none otherwise), then the
    construction calls up to and including [s] and no later one, then
    release calls only. *)
Theorem startCapture_stops_at_failure ndk cameraId width height callback w s w' :
  startCapture_at ndk cameraId width height callback w = (StepFailed s, w') ->
  exists old rollback,
    trace w' = trace w ++ old
               ++ take (S (step_index s))
                    (construction_calls ndk cameraId width height)
               ++ rollback /\
    old = (if capturing_ (self w) then releases (self w) else []) /\
    forallb is_release rollback = true.
Proof.
  intros H.
  assert (exists w1,
            build_pipeline ndk cameraId width height callback w1
            = (StepFailed s, w') /\
            trace w1 = trace w
                       ++ (if capturing_ (self w) then releases (self w) else []))
    as (w1 & Hb & Hw1).
  { unfold startCapture_at in H.
    destruct (capturing_ (self w)) eqn:Hc; cbn [andb] in H.
    - destruct (String.eqb _ _); [discriminate H|].
      exists (cleanup w). split; [exact H|apply cleanup_trace].
    - exists w. split; [exact H|symmetry; apply app_nil_r]. }
  apply build_pipeline_failed_calls in Hb. destruct Hb as (wf & -> & Hwf).
  eexists _, (releases (self wf)). split; [|split; [reflexivity|]].
  - rewrite cleanup_trace, Hwf, Hw1, <- !app_assoc. reflexivity.
  - apply releases_are_releases.
Qed.

Lemma startCapture_stops_at_failure_witness :
  let r := startCapture_at (ndk_failing_at GetWindow) "1" 640 480 None
             capturing0 in
  r = (StepFailed GetWindow, snd r) /\
  exists old rollback,
    trace (snd r)
    = trace capturing0 ++ old
      ++ take 3 (construction_calls (ndk_failing_at GetWindow) "1" 640 480)
      ++ rollback /\
    old = releases (self capturing0) /\
    forallb is_release rollback = true.
Proof.
  cbv zeta.
  assert (startCapture_at (ndk_failing_at GetWindow) "1" 640 480 None capturing0
          = (StepFailed GetWindow,
             snd (startCapture_at (ndk_failing_at GetWindow) "1" 640 480 None
                    capturing0))) as H by (vm_compute; reflexivity).
  split; [exact H|].
  exact (startCapture_stops_at_failure _ _ _ _ _ _ _ _ H).
Defined.







(** X7. The release calls of [cleanup].  Each of them is made on a handle
    that is not null, and no release function is called twice on the same
    handle. *)
Theorem cleanup_releases_sound w :
  exists calls,
    trace (cleanup w) = trace w ++ calls /\
    Forall (fun e => exists p, released_handle e = Some p /\ p <> nullptr) calls /\
    List.NoDup calls.
Proof.
  exists (releases (self w)). split; [apply cleanup_trace|].
  unfold releases, held. split.
  - repeat match goal with
    | |- context [is_null ?p] =>
        let E := fresh "E" in
        destruct (is_null p) eqn:E;
        [|apply Z.eqb_neq in E]
    end;
    cbn [app]; repeat constructor; eauto.
  - repeat match goal with
    | |- context [is_null ?p] => destruct (is_null p)
    end;
    cbn [app];
    repeat (constructor; [cbn [In]; intuition discriminate|]);
    constructor.
Qed.

(** * Further properties of the frame handler *)

(** X8. What gates delivery is the registered callback, not the flag.
    After a [stopCapture] that found the object capturing, an image that
    still arrives is never delivered: the handler does nothing or only
    releases the image.  After a device notification, stopped or not, the
    callback is still registered, and an arriving image that fits
    ([width*height*3] inside [int32_t]), whose planes hold every cell the
    handler reads and whose buffer can be allocated, is packed and handed
    to the callback as before. *)
Theorem delivery_after_stop :
  (forall host w acquired,
     capturing_ (self w) = true ->
     onImageAvailable host acquired (stopCapture w) = stopCapture w \/
     exists image,
       onImageAvailable host acquired (stopCapture w)
       = emit (AImage_delete image) (stopCapture w)) /\
  (forall host w error callback image yData uData vData,
     frameCallback_ (self w) = Some callback ->
     planeData (plane0 image) = Some yData ->
     planeData (plane1 image) = Some uData ->
     planeData (plane2 image) = Some vData ->
     frame_fits (imageWidth image) (imageHeight image) ->
     cells_inside yData (imageHeight image) (imageWidth image)
       (planeRowStride (plane0 image)) 1 ->
     cells_inside uData (Z.quot (imageHeight image) 2)
       (Z.quot (imageWidth image) 2) (planeRowStride (plane1 image))
       (planePixelStride (plane1 image)) ->
     cells_inside vData (Z.quot (imageHeight image) 2)
       (Z.quot (imageWidth image) 2) (planeRowStride (plane1 image))
       (planePixelStride (plane1 image)) ->
     new_fails host = false ->
     let buffer := i420_pack (imageWidth image) (imageHeight image)
                     yData uData vData (planeRowStride (plane0 image))
                     (planeRowStride (plane1 image))
                     (planePixelStride (plane1 image)) in
     trace (onImageAvailable host (AMEDIA_OK, Some image)
              (stopCapture (onDeviceDisconnected w)))
     = trace w ++ delivery host callback image buffer /\
     trace (onImageAvailable host (AMEDIA_OK, Some image)
              (stopCapture (onDeviceError error w)))
     = trace w ++ delivery host callback image buffer).
Proof.
  split.
  - intros host w [status [image|]] Hc; [|left; reflexivity].
    unfold stopCapture. rewrite Hc. cbn [negb].
    unfold onImageAvailable. cbn [fst snd].
    destruct (negb (status =? AMEDIA_OK)); [left; reflexivity|].
    rewrite cleanup_self. cbn [frameCallback_ fresh].
    right. exists image. reflexivity.
  - intros host w error callback image yData uData vData Hcb HY HU HV Hfits
      _ _ _ Hnew.
    cbv zeta.
    assert (forall w0, capturing_ (self w0) = false ->
              frameCallback_ (self w0) = Some callback ->
              trace w0 = trace w ->
              trace (onImageAvailable host (AMEDIA_OK, Some image)
                       (stopCapture w0))
              = trace w ++ delivery host callback image
                  (i420_pack (imageWidth image) (imageHeight image)
                     yData uData vData (planeRowStride (plane0 image))
                     (planeRowStride (plane1 image))
                     (planePixelStride (plane1 image)))) as Hgen.
    { intros w0 Hc0 Hcb0 Ht0. rewrite stopCapture_not_capturing by exact Hc0.
      rewrite (onImageAvailable_delivers_fit host w0 callback image _ _ _
                 Hcb0 HY HU HV Hfits Hnew).
      cbn [trace emit_all]. rewrite Ht0. reflexivity. }
    destruct w as [[] t]. cbn in Hcb.
    split; apply Hgen; cbn; auto.
Qed.

Lemma delivery_after_stop_witness :
  capturing_ (self capturing0) = true /\
  frameCallback_ (self capturing0) = Some 7%nat /\
  frame_fits (imageWidth image_interleaved) (imageHeight image_interleaved) /\
  (onImageAvailable host_fine (AMEDIA_OK, Some image_interleaved)
     (stopCapture capturing0) = stopCapture capturing0 \/
   exists image,
     onImageAvailable host_fine (AMEDIA_OK, Some image_interleaved)
       (stopCapture capturing0)
     = emit (AImage_delete image) (stopCapture capturing0)) /\
  exists buffer,
    trace (onImageAvailable host_fine (AMEDIA_OK, Some image_interleaved)
             (stopCapture (onDeviceDisconnected capturing0)))
    = trace capturing0 ++ delivery host_fine 7%nat image_interleaved buffer.
Proof.
  assert (frame_fits (imageWidth image_interleaved)
            (imageHeight image_interleaved)) as Hfits
    by (unfold frame_fits, INT32_MAX; cbn; lia).
  assert (cells_inside [50; 51; 52; 53; 54; 55; 56; 57;
                        58; 59; 60; 61; 62; 63; 64; 65] 4 4 4 1) as HinY
    by (intros row col Hr Hc; cbn [length]; lia).
  assert (cells_inside [30; 40; 31; 41; 32; 42; 33] 2 2 4 2) as HinU
    by (intros row col Hr Hc; cbn [length]; lia).
  assert (cells_inside [40; 31; 41; 32; 42; 33; 43] 2 2 4 2) as HinV
    by (intros row col Hr Hc; cbn [length]; lia).
  split; [reflexivity|]. split; [reflexivity|]. split; [exact Hfits|]. split.
  - exact (proj1 delivery_after_stop host_fine capturing0
             (AMEDIA_OK, Some image_interleaved) eq_refl).
  - eexists.
    exact (proj1 (proj2 delivery_after_stop host_fine capturing0 0 7%nat
                    image_interleaved _ _ _ eq_refl eq_refl eq_refl eq_refl
                    Hfits HinY HinU HinV eq_refl)).
Defined.

(** A packed offset names one cell. *)
Lemma cell_of_offset rows cols k :
  0 <= k < rows * cols -> 0 <= rows -> 0 <= cols ->
  0 <= k / cols < rows /\ 0 <= k mod cols < cols /\
  k = k / cols * cols + k mod cols.
Proof.
  intros Hk Hr Hc. assert (0 < cols) as Hpos by nia.
  pose proof (Z.div_mod k cols ltac:(lia)) as Hdm.
  pose proof (Z.mod_pos_bound k cols Hpos) as Hm.
  pose proof (Z.div_pos k cols ltac:(lia) Hpos) as Hd.
  split; [|split; [exact Hm|lia]].
  split; [exact Hd|]. apply Z.div_lt_upper_bound; [exact Hpos|lia].
Qed.

Lemma byte_at_of_nat (l : list Z) (i : nat) : byte_at l (Z.of_nat i) = l !! i.
Proof.
  unfold byte_at.
  replace (Z.of_nat i <? 0) with false by (symmetry; apply Z.ltb_ge; lia).
  rewrite Nat2Z.id. reflexivity.
Qed.

(** X9. The whole buffer in closed form.  For a frame that fits
    (dimensions not negative, odd ones included, [width*height*3] inside
    [int32_t]) whose planes hold every cell the handler reads (each cell's
    offset [row*rowStride + col*pixelStride] lies inside the plane, and
    the plane is no longer than an [int] can tell), and whichever branches
    the strides select, the buffer the handler packs is the list of
    [width*height*3/2] bytes whose byte [j] is: the luma byte of cell
    [(j / width, j mod width)] for [j] in the luma plane; the U byte, then
    the V byte, of the cell with packed offset [j] minus the start of its
    plane, read with the strides of plane 1; and zero for the bytes after
    the V plane, which odd dimensions leave over. *)
Theorem i420_pack_closed_form width height yData uData vData
    yRowStride uvRowStride uvPixelStride :
  frame_fits width height ->
  cells_inside yData height width yRowStride 1 ->
  cells_inside uData (Z.quot height 2) (Z.quot width 2) uvRowStride
    uvPixelStride ->
  cells_inside vData (Z.quot height 2) (Z.quot width 2) uvRowStride
    uvPixelStride ->
  Z.of_nat (length yData) <= INT32_MAX ->
  Z.of_nat (length uData) <= INT32_MAX ->
  Z.of_nat (length vData) <= INT32_MAX ->
  i420_pack width height yData uData vData yRowStride uvRowStride uvPixelStride
  = i420_bytes width height yData uData vData yRowStride uvRowStride
      uvPixelStride.
Proof.
  intros Hfits HinY HinU HinV HlY HlU HlV.
  destruct (pack_parts width height yData uData vData yRowStride uvRowStride
              uvPixelStride Hfits) as (Hlen & HY & HU & HV).
  pose proof (i420Size_exact width height Hfits) as Hsize.
  destruct Hfits as (Hw & Hh & Hfit).
  pose proof (planes_fit_size width height Hw Hh) as Hplanes.
  pose proof (quot2_nonneg width Hw) as Hw2.
  pose proof (quot2_nonneg height Hh) as Hh2.
  pose proof (quot2_le width Hw) as Hw2le.
  pose proof (quot2_le height Hh) as Hh2le.
  assert (0 <= width * height <= INT32_MAX) as Hwh by (unfold INT32_MAX in *; nia).
  assert (0 <= Z.quot width 2 * Z.quot height 2) as Hn by nia.
  apply list_eq. intros i. unfold i420_bytes.
  rewrite list_lookup_fmap.
  destruct (Z.lt_ge_cases (Z.of_nat i) (Z.quot (width * height * 3) 2))
    as [Hi|Hi].
  2:{ rewrite lookup_seqZ_ge by lia. cbn.
      apply lookup_ge_None_2. lia. }
  rewrite lookup_seqZ_lt by lia. cbn [fmap option_fmap option_map].
  rewrite Z.add_0_l, <- byte_at_of_nat. f_equal.
  set (j := Z.of_nat i) in *. assert (0 <= j) as Hj0 by lia.
  unfold i420_byte. cbv zeta.
  destruct (j <? width * height) eqn:E1.
  { apply Z.ltb_lt in E1.
    destruct (cell_of_offset height width j ltac:(lia) Hh Hw) as (Hr & Hc & Hjk).
    pose proof (HinY _ _ Hr Hc) as Hin.
    specialize (HY _ _ Hr Hc). rewrite Z.add_0_l, <- Hjk in HY.
    rewrite HY. do 2 f_equal.
    apply luma_offset_exact; [exact Hc|unfold INT32_MAX in *; nia|lia]. }
  apply Z.ltb_ge in E1.
  assert (Z.quot width 2 <= INT32_MAX) as Hw2fit.
  { destruct (Z.eq_dec height 0) as [->|Hne]; [|unfold INT32_MAX in *; nia].
    replace (width * 0 * 3) with 0 in Hi by lia. cbn in Hi. lia. }
  destruct (j <? width * height + Z.quot width 2 * Z.quot height 2) eqn:E2.
  { apply Z.ltb_lt in E2.
    destruct (cell_of_offset (Z.quot height 2) (Z.quot width 2)
                (j - width * height) ltac:(lia) Hh2 Hw2) as (Hr & Hc & Hjk).
    pose proof (HinU _ _ Hr Hc) as Hin.
    specialize (HU _ _ Hr Hc). rewrite <- Hjk in HU.
    replace (width * height + (j - width * height)) with j in HU by lia.
    rewrite HU. do 2 f_equal.
    apply chroma_offset_exact; [exact Hc|exact Hw2fit|lia]. }
  apply Z.ltb_ge in E2.
  destruct (j <? width * height + 2 * (Z.quot width 2 * Z.quot height 2)) eqn:E3.
  { apply Z.ltb_lt in E3.
    destruct (cell_of_offset (Z.quot height 2) (Z.quot width 2)
                (j - width * height - Z.quot width 2 * Z.quot height 2)
                ltac:(lia) Hh2 Hw2) as (Hr & Hc & Hjk).
    pose proof (HinV _ _ Hr Hc) as Hin.
    specialize (HV _ _ Hr Hc). rewrite <- Hjk in HV.
    replace (width * height + Z.quot width 2 * Z.quot height 2
             + (j - width * height - Z.quot width 2 * Z.quot height 2))
      with j in HV by lia.
    rewrite HV. do 2 f_equal.
    apply chroma_offset_exact; [exact Hc|exact Hw2fit|lia]. }
  apply Z.ltb_ge in E3.
  unfold i420_pack, i420_fill. cbv zeta. rewrite Hsize.
  rewrite copy_UV_outside by (try assumption; lia).
  rewrite copy_Y_outside by (try assumption; lia).
  apply byte_at_zeros. lia.
Qed.

Lemma i420_pack_closed_form_witness :
  frame_fits 5 3 /\
  cells_inside [1; 2; 3; 4; 5; 6; 7; 8; 9; 10; 11; 12; 13; 14; 15] 3 5 5 1 /\
  cells_inside [60; 99; 61] 1 2 2 2 /\
  cells_inside [70; 99; 71] 1 2 2 2 /\
  i420_pack 5 3 [1; 2; 3; 4; 5; 6; 7; 8; 9; 10; 11; 12; 13; 14; 15]
    [60; 99; 61] [70; 99; 71] 5 2 2
  = i420_bytes 5 3 [1; 2; 3; 4; 5; 6; 7; 8; 9; 10; 11; 12; 13; 14; 15]
      [60; 99; 61] [70; 99; 71] 5 2 2.
Proof.
  assert (frame_fits 5 3) as Hfits by (unfold frame_fits, INT32_MAX; lia).
  assert (cells_inside [1; 2; 3; 4; 5; 6; 7; 8; 9; 10; 11; 12; 13; 14; 15]
            3 5 5 1) as HinY
    by (intros row col Hr Hc; cbn [length]; lia).
  assert (cells_inside [60; 99; 61] 1 2 2 2) as HinU
    by (intros row col Hr Hc; cbn [length]; lia).
  assert (cells_inside [70; 99; 71] 1 2 2 2) as HinV
    by (intros row col Hr Hc; cbn [length]; lia).
  split; [exact Hfits|]. split; [exact HinY|]. split; [exact HinU|].
  split; [exact HinV|].
  apply (i420_pack_closed_form 5 3 _ _ _ 5 2 2 Hfits HinY HinU HinV);
    unfold INT32_MAX; cbn [length]; lia.
Defined.

Lemma i420_fill_nil width height yData uData vData yRowStride uvRowStride
    uvPixelStride :
  i420_fill width height yData uData vData yRowStride uvRowStride
    uvPixelStride []
  = [].
Proof.
  apply length_zero_iff_nil. unfold i420_fill.
  rewrite length_copy_UV, length_copy_Y. reflexivity.
Qed.

(** X10. A frame without pixels is still delivered.  For an image of width
    or height zero with its three plane pointers non-null, the handler
    allocates an empty buffer (which asks the allocator for nothing, so
    cannot fail), calls the frame callback with it and size 0, and, when
    the callback returns, releases the image; it has no guard for empty
    frames. *)
Theorem empty_frame_delivered host w callback image yData uData vData :
  frameCallback_ (self w) = Some callback ->
  planeData (plane0 image) = Some yData ->
  planeData (plane1 image) = Some uData ->
  planeData (plane2 image) = Some vData ->
  0 <= imageWidth image -> 0 <= imageHeight image ->
  imageWidth image * imageHeight image = 0 ->
  trace (onImageAvailable host (AMEDIA_OK, Some image) w)
  = trace w ++ [vector_alloc 0;
                frameCallback_invoke callback [] 0 (imageWidth image)
                  (imageHeight image) (imageTimestamp image);
                if callback_throws host
                then exception_thrown callback_exception
                else AImage_delete image].
Proof.
  intros Hcb HY HU HV Hw Hh Hzero.
  assert (i420Size (imageWidth image) (imageHeight image) = 0) as Hsize
    by (unfold i420Size, mul32; rewrite Hzero; reflexivity).
  rewrite (onImageAvailable_delivers host w callback image _ _ _ Hcb HY HU HV)
    by (rewrite Hsize; reflexivity).
  cbn [trace emit_all]. f_equal. unfold delivery, i420_pack.
  rewrite Hsize. cbn [Z.to_nat replicate]. rewrite i420_fill_nil. reflexivity.
Qed.

Lemma empty_frame_delivered_witness :
  frameCallback_ (self capturing0) = Some 7%nat /\
  imageWidth image_empty * imageHeight image_empty = 0 /\
  trace (onImageAvailable host_fine (AMEDIA_OK, Some image_empty) capturing0)
  = trace capturing0 ++ [vector_alloc 0; frameCallback_invoke 7%nat [] 0 0 4 5;
                         AImage_delete image_empty].
Proof.
  split; [reflexivity|]. split; [reflexivity|].
  assert (0 <= 0) as H0 by (apply Z.leb_le; reflexivity).
  assert (0 <= 4) as H4 by (apply Z.leb_le; reflexivity).
  exact (empty_frame_delivered host_fine capturing0 7%nat image_empty [] [] []
           eq_refl eq_refl eq_refl eq_refl H0 H4 eq_refl).
Defined.

Lemma onImageAvailable_self host acquired w :
  self (onImageAvailable host acquired w) = self w.
Proof.
  unfold onImageAvailable. destruct acquired as [status [image|]]; cbn [fst snd];
    [|reflexivity].
  destruct (negb (status =? AMEDIA_OK)); [reflexivity|].
  destruct (frameCallback_ (self w)); [|reflexivity].
  destruct (planeData (plane0 image)), (planeData (plane1 image)),
           (planeData (plane2 image)); try reflexivity.
  cbv zeta.
  destruct (vector_new host (i420Size (imageWidth image) (imageHeight image)));
    [reflexivity|].
  destruct (callback_throws host); reflexivity.
Qed.

Lemma build_pipeline_self ndk cameraId width height callback w :
  fst (build_pipeline ndk cameraId width height callback w)
  = (if manager_isValid ndk
     then match first_failure ndk with
          | Some s => StepFailed s
          | None => Started
          end
     else ManagerInvalid) /\
  self (snd (build_pipeline ndk cameraId width height callback w))
  = (if manager_isValid ndk
     then match first_failure ndk with
          | Some _ => fresh
          | None => started_object ndk cameraId callback
          end
     else self w).
Proof.
  destruct (manager_isValid ndk) eqn:Hv.
  - pose proof (build_pipeline_outcome ndk cameraId width height callback w Hv)
      as Hout.
    split; [exact Hout|].
    destruct (first_failure ndk) as [s|] eqn:Hff.
    + destruct (build_pipeline ndk cameraId width height callback w)
        as [o w'] eqn:Hb.
      cbn [fst] in Hout. subst o. apply build_pipeline_spec in Hb.
      destruct Hb as (wf & calls & -> & _). apply cleanup_self.
    + rewrite build_pipeline_started by assumption. reflexivity.
  - unfold build_pipeline. rewrite Hv. split; reflexivity.
Qed.

Lemma startCapture_self_indep ndk cameraId width height callback w1 w2 :
  self w1 = self w2 ->
  fst (startCapture ndk cameraId width height callback w1)
  = fst (startCapture ndk cameraId width height callback w2) /\
  self (snd (startCapture ndk cameraId width height callback w1))
  = self (snd (startCapture ndk cameraId width height callback w2)).
Proof.
  intros Heq. unfold startCapture, startCapture_at. cbn [fst snd].
  rewrite Heq.
  destruct (capturing_ (self w2) && String.eqb (currentCameraId_ (self w2)) cameraId);
    [split; [reflexivity|exact Heq]|].
  cbv zeta.
  set (v1 := if capturing_ (self w2) then cleanup w1 else w1).
  set (v2 := if capturing_ (self w2) then cleanup w2 else w2).
  assert (self v1 = self v2) as Hv.
  { unfold v1, v2. destruct (capturing_ (self w2));
      [rewrite !cleanup_self; reflexivity|exact Heq]. }
  destruct (build_pipeline_self ndk cameraId width height callback v1) as [-> ->].
  destruct (build_pipeline_self ndk cameraId width height callback v2) as [-> ->].
  rewrite Hv. split; reflexivity.
Qed.

(** X11. Frames do not disturb the session.  The handler never changes a
    member of the object, whether it returns or is left by an exception,
    so an image that arrives before an operation does not change what
    [startCapture] returns nor the members that [startCapture],
    [stopCapture] or a device notification leave. *)
Theorem frames_do_not_disturb host acquired w :
  self (onImageAvailable host acquired w) = self w /\
  (forall ndk cameraId width height callback,
     fst (startCapture ndk cameraId width height callback
            (onImageAvailable host acquired w))
     = fst (startCapture ndk cameraId width height callback w) /\
     self (snd (startCapture ndk cameraId width height callback
                  (onImageAvailable host acquired w)))
     = self (snd (startCapture ndk cameraId width height callback w))) /\
  self (stopCapture (onImageAvailable host acquired w)) = self (stopCapture w) /\
  self (onDeviceDisconnected (onImageAvailable host acquired w))
  = self (onDeviceDisconnected w).
Proof.
  pose proof (onImageAvailable_self host acquired w) as Hself.
  split; [exact Hself|]. split; [|split].
  - intros. apply startCapture_self_indep, Hself.
  - unfold stopCapture. rewrite Hself.
    destruct (capturing_ (self w)); cbn [negb];
      [rewrite !cleanup_self; reflexivity|exact Hself].
  - unfold onDeviceDisconnected. cbn [self upd]. rewrite Hself. reflexivity.
Qed.
